(** * Face verification component: gaze heuristic and descriptor matching

    A shallow embedding of [src/Components/VerifcationComponent.tsx]: the
    orientation heuristic [checkIfLookingAtScreen] and the two handlers
    [captureFace] and [verifyFace] of the React component, together with
    the pieces of JavaScript arithmetic and of face-api.js they call.

    JavaScript numbers are IEEE 754 binary64 values, so they are modelled
    by Rocq's primitive floats; lemmas about them go through the
    specification of the primitives in [SpecFloat]. *)

From Stdlib Require Import Floats ZArith String List Bool Lia.
Import ListNotations.

Set Warnings "-inexact-float".

(** ** JavaScript numbers *)

Module JSNumber.

Definition number := float.

Definition Math_abs (v : number) : number := abs v.

Definition Math_sqrt (v : number) : number := sqrt v.

(** [Math.pow(v, 2)], the only exponent the program uses. *)
Definition Math_pow2 (v : number) : number := (v * v)%float.

(** The number whose value is the integer [n] (exact below 2^53). *)
Definition of_integer (n : Z) : number :=
  SF2Prim (binary_normalize prec emax n 0%Z false).

(** [Math.round]: the integer closest to [v], a tie going to the integer
    nearer to +infinity; NaN, the infinities and the zeros are returned
    as they are, and a result of zero keeps the sign of [v].  A finite
    [v = (-1)^s * m * 2^e] with [e >= 0] is an integer already; otherwise
    the result is [floor (v + 1/2)], computed exactly over [Z]. *)
Definition Math_round (v : number) : number :=
  match Prim2SF v with
  | S754_finite s m e =>
      if (0 <=? e)%Z then v
      else
        let n := ((2 * cond_Zopp s (Zpos m) + 2 ^ (- e)) / 2 ^ (1 - e))%Z in
        if (n =? 0)%Z then (if s then (-0)%float else 0%float)
        else of_integer n
  | _ => v
  end.

(** [Number.isFinite]. *)
Definition isFinite (v : number) : bool :=
  match Prim2SF v with
  | S754_zero _ | S754_finite _ _ _ => true
  | _ => false
  end.

End JSNumber.

Import JSNumber.

(** ** The parts of face-api.js the component uses *)

Module FaceApi.

Record Point := { x : number; y : number }.

Definition add (p q : Point) : Point :=
  {| x := (x p + x q)%float; y := (y p + y q)%float |}.

(** Modelled from the spec: [getCenterPoint] belongs to face-api.js and
    is not under src/.  It is the centroid of a point sequence (mean of
    the x coordinates, mean of the y coordinates): the points are summed
    from (0, 0) and the sum is divided by the number of points, so an
    empty sequence gives (NaN, NaN). *)
Definition getCenterPoint (pts : list Point) : Point :=
  let sum := fold_left add pts {| x := 0%float; y := 0%float |} in
  let n := of_integer (Z.of_nat (length pts)) in
  {| x := (x sum / n)%float; y := (y sum / n)%float |}.

(** Modelled from the spec: [euclideanDistance] belongs to face-api.js
    and is not under src/.  It is the L2 norm of the element-wise
    difference of two vectors of the same length: the differences are
    squared and summed from 0 in index order, and the square root of the
    sum is returned.  Vectors of different lengths are refused with an
    exception, here [None]. *)
Definition euclideanDistance (arr1 arr2 : list number) : option number :=
  if Nat.eqb (length arr1) (length arr2) then
    let diffs := map (fun vw => (fst vw - snd vw)%float) (combine arr1 arr2) in
    Some (Math_sqrt
            (fold_left (fun res diff => (res + Math_pow2 diff)%float) diffs 0%float))
  else None.

(** A landmark set as the component reads it: the point groups returned
    by [getNose()], [getLeftEye()] and [getRightEye()].  The nose group
    always has a point at index 3, the nose tip. *)
Record FaceLandmarks68 := {
  getNose : list Point;
  getLeftEye : list Point;
  getRightEye : list Point;
  getNose_tip : Nat.ltb 3 (length getNose) = true
}.

(** A face descriptor: a vector of 128 numbers, the entries of a
    Float32Array, whatever they are (NaN and the infinities included). *)
Record FaceDescriptor := {
  values : list number;
  values_length : Nat.eqb (length values) 128 = true
}.

(** One detected face of a frame, with its landmarks and descriptor (the
    bounding box only serves the drawing and is left out). *)
Record Detection := {
  landmarks : FaceLandmarks68;
  descriptor : FaceDescriptor
}.

End FaceApi.

(** ** The gaze heuristic *)

Section Gaze.

Variable lms : FaceApi.FaceLandmarks68.

Definition leftEyeCenter : FaceApi.Point :=
  FaceApi.getCenterPoint (FaceApi.getLeftEye lms).

Definition rightEyeCenter : FaceApi.Point :=
  FaceApi.getCenterPoint (FaceApi.getRightEye lms).

Definition eyeLine : FaceApi.Point :=
  {| FaceApi.x := (FaceApi.x rightEyeCenter - FaceApi.x leftEyeCenter)%float;
     FaceApi.y := (FaceApi.y rightEyeCenter - FaceApi.y leftEyeCenter)%float |}.

Definition eyeYDifference : number := Math_abs (FaceApi.y eyeLine).

Definition eyeXDifference : number := Math_abs (FaceApi.x eyeLine).

Definition noseXCenter : number :=
  ((FaceApi.x leftEyeCenter + FaceApi.x rightEyeCenter) / 2)%float.

(** [nose[3]], undefined ([None]) on a shorter nose group. *)
Definition nosePoint : option FaceApi.Point :=
  nth_error (FaceApi.getNose lms) 3.

(** [Math.abs(nosePoint.x - noseXCenter)]; [None] stands for the TypeError
    of reading [.x] of an undefined [nosePoint]. *)
Definition noseOffset : option number :=
  match nosePoint with
  | None => None
  | Some tip => Some (Math_abs (FaceApi.x tip - noseXCenter)%float)
  end.

Definition checkIfLookingAtScreen : option bool :=
  match noseOffset with
  | None => None
  | Some noseOffset =>
      let isEyesLevel := (eyeYDifference <? eyeXDifference * 0.3)%float in
      let isNoseCentered := (noseOffset <? eyeXDifference * 0.4)%float in
      Some (isEyesLevel && isNoseCentered)
  end.

End Gaze.

(** ** The component's state *)

Record FaceData := {
  descriptor : FaceApi.FaceDescriptor;
  detection : FaceApi.Detection
}.

(** A message is a template literal kept in pieces: literal text and the
    numbers interpolated into it. *)
Inductive Piece :=
| Text (s : string)
| Num (n : number).

Record VerificationResult := {
  isMatch : bool;
  message : list Piece;
  distance : option number;
  confidence : option number
}.

(** What [canvasRef.current] holds: nothing, a canvas whose
    [getContext("2d")] answers null, or a canvas that can be drawn on. *)
Inductive Canvas := CanvasNull | CanvasNoContext | CanvasReady.

Record State := {
  videoRef : bool;   (* is [videoRef.current] set? *)
  canvasRef : Canvas;
  modelsLoaded : bool;
  initialFace : option FaceData;
  verificationResult : option VerificationResult;
  statusMessage : string;
  multipleFacesDetected : bool;
  isLookingAtScreen : bool
}.

Definition initialState (video : bool) (canvas : Canvas) : State :=
  {| videoRef := video;
     canvasRef := canvas;
     modelsLoaded := false;
     initialFace := None;
     verificationResult := None;
     statusMessage := "Loading Models....";
     multipleFacesDetected := false;
     isLookingAtScreen := true |}.

(** The read-only query of the session: is a reference face enrolled?
    (The verify button is disabled on [!initialFace].) *)
Definition isEnrolled (st : State) : bool :=
  match initialFace st with Some _ => true | None => false end.

(** The calls of the state setters, in the order a handler makes them. *)
Inductive Effect :=
| SetModelsLoaded (b : bool)
| SetInitialFace (f : FaceData)
| SetVerificationResult (r : VerificationResult)
| SetStatusMessage (s : string)
| SetMultipleFacesDetected (b : bool)
| SetIsLookingAtScreen (b : bool).

Definition apply (st : State) (e : Effect) : State :=
  match e with
  | SetModelsLoaded b =>
      {| videoRef := videoRef st; canvasRef := canvasRef st;
         modelsLoaded := b; initialFace := initialFace st;
         verificationResult := verificationResult st;
         statusMessage := statusMessage st;
         multipleFacesDetected := multipleFacesDetected st;
         isLookingAtScreen := isLookingAtScreen st |}
  | SetInitialFace f =>
      {| videoRef := videoRef st; canvasRef := canvasRef st;
         modelsLoaded := modelsLoaded st; initialFace := Some f;
         verificationResult := verificationResult st;
         statusMessage := statusMessage st;
         multipleFacesDetected := multipleFacesDetected st;
         isLookingAtScreen := isLookingAtScreen st |}
  | SetVerificationResult r =>
      {| videoRef := videoRef st; canvasRef := canvasRef st;
         modelsLoaded := modelsLoaded st; initialFace := initialFace st;
         verificationResult := Some r;
         statusMessage := statusMessage st;
         multipleFacesDetected := multipleFacesDetected st;
         isLookingAtScreen := isLookingAtScreen st |}
  | SetStatusMessage s =>
      {| videoRef := videoRef st; canvasRef := canvasRef st;
         modelsLoaded := modelsLoaded st; initialFace := initialFace st;
         verificationResult := verificationResult st;
         statusMessage := s;
         multipleFacesDetected := multipleFacesDetected st;
         isLookingAtScreen := isLookingAtScreen st |}
  | SetMultipleFacesDetected b =>
      {| videoRef := videoRef st; canvasRef := canvasRef st;
         modelsLoaded := modelsLoaded st; initialFace := initialFace st;
         verificationResult := verificationResult st;
         statusMessage := statusMessage st;
         multipleFacesDetected := b;
         isLookingAtScreen := isLookingAtScreen st |}
  | SetIsLookingAtScreen b =>
      {| videoRef := videoRef st; canvasRef := canvasRef st;
         modelsLoaded := modelsLoaded st; initialFace := initialFace st;
         verificationResult := verificationResult st;
         statusMessage := statusMessage st;
         multipleFacesDetected := multipleFacesDetected st;
         isLookingAtScreen := b |}
  end.

Definition run (st : State) (effects : list Effect) : State :=
  fold_left apply effects st.

(** ** The handlers *)

(** What [await detectAllFaces(...).withFaceLandmarks().withFaceDescriptors()]
    gives for the current frame: the detections, or a rejection. *)
Inductive Detected :=
| Resolved (detections : list FaceApi.Detection)
| Rejected.

(** The block [if (canvasRef.current) { ... }] that draws the overlay,
    followed by [rest], the setter calls after the block.  Drawing changes
    no state of the component; a canvas without a 2d context sets the
    status and returns from the handler. *)
Definition drawOverlay (canvas : Canvas) (rest : list Effect) : list Effect :=
  match canvas with
  | CanvasNull => rest
  | CanvasNoContext => [SetStatusMessage "Canvas not initialized"]
  | CanvasReady => rest
  end.

Definition captureFace (st : State) (frame : Detected) : list Effect :=
  if negb (videoRef st) || negb (modelsLoaded st) then []
  else
    let caught := [SetStatusMessage "Failed at detecting face."] in
    SetStatusMessage "Detecting Face...." ::
    match frame with
    | Rejected => caught
    | Resolved detections =>
        if Nat.eqb (length detections) 0 then
          [SetStatusMessage
             "No face detected! Please position yourself properly and try again"]
        else if Nat.ltb 1 (length detections) then
          SetMultipleFacesDetected true ::
          SetStatusMessage
            "Multiple faces detected! Please ensure only your face is in the frame." ::
          drawOverlay (canvasRef st) []
        else
          match nth_error detections 0 with
          | None => caught
          | Some detection =>
              match checkIfLookingAtScreen (FaceApi.landmarks detection) with
              | None => caught
              | Some isLooking =>
                  SetIsLookingAtScreen isLooking ::
                  if negb isLooking then
                    SetStatusMessage
                      "Please look directly at the screen before capturing your face." ::
                    drawOverlay (canvasRef st) []
                  else
                    SetInitialFace
                      {| descriptor := FaceApi.descriptor detection;
                         detection := detection |} ::
                    drawOverlay (canvasRef st)
                      [SetStatusMessage
                         "Face captured successfully! Now try the verification."]
              end
          end
    end.

Definition threshold : number := 0.6%float.

(** The guard [!videoRef.current || !initialFace || !modelsLoaded] is read
    in two steps, so that the enrolled face is at hand after it. *)
Definition verifyFace (st : State) (frame : Detected) : list Effect :=
  match initialFace st with
  | Some enrolled =>
      if negb (videoRef st) || negb (modelsLoaded st) then
        [SetStatusMessage "Please capture your initial face first"]
      else
        let caught := [SetStatusMessage "Error at verifying the face."] in
        SetStatusMessage "Verifying face" ::
        match frame with
        | Rejected => caught
        | Resolved detections =>
            if Nat.eqb (length detections) 0 then
              [SetVerificationResult
                 {| isMatch := false;
                    message := [Text "No face detected for verification."];
                    distance := None; confidence := None |};
               SetStatusMessage "Verification failed: No face detected."]
            else if Nat.ltb 1 (length detections) then
              SetMultipleFacesDetected true ::
              SetVerificationResult
                {| isMatch := false;
                   message :=
                     [Text "Multiple faces detected. Please ensure only your face is in the frame."];
                   distance := None; confidence := None |} ::
              drawOverlay (canvasRef st)
                [SetStatusMessage "Verification failed: Multiple faces detected."]
            else
              match nth_error detections 0 with
              | None => caught
              | Some detection =>
                  match checkIfLookingAtScreen (FaceApi.landmarks detection) with
                  | None => caught
                  | Some isLooking =>
                      SetIsLookingAtScreen isLooking ::
                      if negb isLooking then
                        SetVerificationResult
                          {| isMatch := false;
                             message :=
                               [Text "Please look directly at the screen for verification."];
                             distance := None; confidence := None |} ::
                        drawOverlay (canvasRef st)
                          [SetStatusMessage "Verification failed: Not looking at screen."]
                      else
                        match FaceApi.euclideanDistance
                                (FaceApi.values (descriptor enrolled))
                                (FaceApi.values (FaceApi.descriptor detection)) with
                        | None => caught
                        | Some distance =>
                            let isMatch := (distance <? threshold)%float in
                            let confidence := Math_round ((1 - distance) * 100)%float in
                            SetVerificationResult
                              {| isMatch := isMatch;
                                 distance := Some distance;
                                 confidence := Some confidence;
                                 message :=
                                   if isMatch
                                   then [Text "Match confirmed! ("; Num confidence;
                                         Text "% confidence)"]
                                   else [Text "Different person detected. ("; Num confidence;
                                         Text "% similarity)"] |} ::
                            drawOverlay (canvasRef st)
                              [SetStatusMessage
                                 ("Verification complete: " ++
                                  (if isMatch then "Match confirmed!"
                                   else "Different person detected."))]
                        end
                  end
              end
        end
  | None => [SetStatusMessage "Please capture your initial face first"]
  end.

Definition loadModels (loaded : bool) : list Effect :=
  SetStatusMessage "Loading face detection models" ::
  if loaded then
    [SetModelsLoaded true;
     SetStatusMessage "Models loaded successfully, you can now capture face."]
  else [SetStatusMessage "Failed to load models. Check console for details."].

Definition quote : string := String (Ascii.ascii_of_nat 34) EmptyString.

Definition startWebcam (st : State) (granted : bool) : list Effect :=
  if negb (videoRef st) then []
  else
    SetStatusMessage "Requesting webcam access" ::
    if granted then
      [SetStatusMessage
         ("Webcam active. Position your face and click " ++ quote ++
          "Capture Face" ++ quote)]
    else [SetStatusMessage "Failed to access webcam. Check permissions and try again."].

(** ** The session as a transition system *)

Inductive Action :=
| LoadModels (loaded : bool)
| StartWebcam (granted : bool)
| CaptureFace (frame : Detected)
| VerifyFace (frame : Detected).

Definition perform (st : State) (a : Action) : list Effect :=
  match a with
  | LoadModels loaded => loadModels loaded
  | StartWebcam granted => startWebcam st granted
  | CaptureFace frame => captureFace st frame
  | VerifyFace frame => verifyFace st frame
  end.

Definition step (st : State) (a : Action) : State := run st (perform st a).

Definition steps (st : State) (actions : list Action) : State :=
  fold_left step actions st.

Inductive reachable : State -> Prop :=
| reachable_initial (video : bool) (canvas : Canvas) :
    reachable (initialState video canvas)
| reachable_step (st : State) (a : Action) :
    reachable st -> reachable (step st a).

(** Does the effect list store a new enrolled face / a verdict? *)
Definition enrolls (effects : list Effect) : bool :=
  existsb (fun e => match e with SetInitialFace _ => true | _ => false end) effects.

Definition verdicts (effects : list Effect) : list VerificationResult :=
  flat_map (fun e => match e with SetVerificationResult r => [r] | _ => [] end) effects.


(** [actions] run from [st] without any of them enrolling a face. *)
Fixpoint quiet (st : State) (actions : list Action) : bool :=
  match actions with
  | [] => true
  | a :: rest => negb (enrolls (perform st a)) && quiet (step st a) rest
  end.

(** A state is sound when an enrolled face implies that the video is
    mounted and the models are loaded, and a stored verdict implies an
    enrolled face. *)
Definition sound (st : State) : Prop :=
  (initialFace st <> None -> videoRef st = true /\ modelsLoaded st = true) /\
  (verificationResult st <> None -> initialFace st <> None).

(** ** Capture conditions

    The handlers have no error type: a capture condition shows as the
    status text [captureFace] sets, or as the failed verdict [verifyFace]
    stores.  The three conditions are named here as the specification
    names them. *)

Inductive CaptureCondition := NoFace | MultipleFaces | NotFacingCamera.

(** The condition a frame's detections are in, if any. *)
Inductive suffers : list FaceApi.Detection -> CaptureCondition -> Prop :=
| suffers_NoFace : suffers [] NoFace
| suffers_MultipleFaces (detections : list FaceApi.Detection) :
    2 <= length detections -> suffers detections MultipleFaces
| suffers_NotFacingCamera (d : FaceApi.Detection) :
    checkIfLookingAtScreen (FaceApi.landmarks d) = Some false ->
    suffers [d] NotFacingCamera.

Definition captureStatus (c : CaptureCondition) : string :=
  match c with
  | NoFace => "No face detected! Please position yourself properly and try again"
  | MultipleFaces =>
      "Multiple faces detected! Please ensure only your face is in the frame."
  | NotFacingCamera =>
      "Please look directly at the screen before capturing your face."
  end.

Definition verifyText (c : CaptureCondition) : string :=
  match c with
  | NoFace => "No face detected for verification."
  | MultipleFaces =>
      "Multiple faces detected. Please ensure only your face is in the frame."
  | NotFacingCamera => "Please look directly at the screen for verification."
  end.

(** The verdict [verifyFace] stores under a capture condition. *)
Definition failedVerdict (c : CaptureCondition) : VerificationResult :=
  {| isMatch := false; message := [Text (verifyText c)];
     distance := None; confidence := None |}.

(** The verdict [verifyFace] stores after a comparison at distance [d]. *)
Definition comparisonVerdict (d : number) : VerificationResult :=
  let c := Math_round ((1 - d) * 100)%float in
  {| isMatch := (d <? threshold)%float;
     message :=
       if (d <? threshold)%float
       then [Text "Match confirmed! ("; Num c; Text "% confidence)"]
       else [Text "Different person detected. ("; Num c; Text "% similarity)"];
     distance := Some d;
     confidence := Some c |}.

Arguments comparisonVerdict d%_float.

(** ** Sample data *)

(** A landmark set whose six left-eye points are all at [(lx, ly)], whose
    six right-eye points are all at [(rx, ry)] and whose nine nose points
    all have abscissa [nx]. *)
Definition landmarksAt (lx ly rx ry nx : number) : FaceApi.FaceLandmarks68 :=
  {| FaceApi.getNose := repeat {| FaceApi.x := nx; FaceApi.y := ly |} 9;
     FaceApi.getLeftEye := repeat {| FaceApi.x := lx; FaceApi.y := ly |} 6;
     FaceApi.getRightEye := repeat {| FaceApi.x := rx; FaceApi.y := ry |} 6;
     FaceApi.getNose_tip := eq_refl |}.

Arguments landmarksAt (lx ly rx ry nx)%_float.

(** Eyes level and 60 pixels apart, nose on their axis. *)
Definition frontalLandmarks : FaceApi.FaceLandmarks68 :=
  landmarksAt 100 100 160 100 130.

(** The same eyes with the nose tip under the right eye. *)
Definition turnedLandmarks : FaceApi.FaceLandmarks68 :=
  landmarksAt 100 100 160 100 160.

(** Both eye centres on one vertical line. *)
Definition alignedLandmarks : FaceApi.FaceLandmarks68 :=
  landmarksAt 100 100 100 140 100.

(** Every landmark at the same point. *)
Definition collapsedLandmarks : FaceApi.FaceLandmarks68 :=
  landmarksAt 100 100 100 100 100.

(** Level eyes whose centres are one unit in the last place of the
    smallest subnormal apart, the nose tip on their midpoint as rounded. *)
Definition tinyLandmarks : FaceApi.FaceLandmarks68 :=
  landmarksAt 0 0 0x1p-1074 0 0.

(** The descriptor with the entries [a], [b], [c] followed by 125 zeros. *)
Definition embedding (a b c : number) : FaceApi.FaceDescriptor :=
  {| FaceApi.values := a :: b :: c :: repeat 0%float 125;
     FaceApi.values_length := eq_refl |}.

Arguments embedding (a b c)%_float.

Definition origin : FaceApi.FaceDescriptor := embedding 0 0 0.

(** A descriptor whose first entry is NaN. *)
Definition nanprint : FaceApi.FaceDescriptor := embedding nan 0 0.

(** Single-precision entries, as a Float32Array holds them, at distance
    exactly 0.6 from the origin. *)
Definition faceprint06 : FaceApi.FaceDescriptor :=
  embedding 0x1.333332p-1 0x1.b27242p-13 0x1.0e522cp-23.

(** Single-precision entries at distance exactly 1.3 from the origin. *)
Definition faceprint13 : FaceApi.FaceDescriptor :=
  embedding 0x1.4cccccp+0 0x1.713556p-12 0x1.1baa3cp-22.

Definition face (lms : FaceApi.FaceLandmarks68) (d : FaceApi.FaceDescriptor)
  : FaceApi.Detection :=
  {| FaceApi.landmarks := lms; FaceApi.descriptor := d |}.

(** A session with the models loaded and the elements mounted. *)
Definition readyState : State :=
  step (initialState true CanvasReady) (LoadModels true).

(** The ready session after enrolling the frontal face with descriptor [d]. *)
Definition enrolledWith (d : FaceApi.FaceDescriptor) : State :=
  step readyState (CaptureFace (Resolved [face frontalLandmarks d])).

(** ** What the component renders

    The JSX the component returns, as the data it shows: the status
    paragraph, the two warning boxes, the two buttons with their
    [disabled] attribute, and the result panel. *)

(** JavaScript's truthiness of a number: 0, -0 and NaN are falsy. *)
Definition truthy (n : number) : bool :=
  match Prim2SF n with
  | S754_zero _ | S754_nan => false
  | _ => true
  end.

(** What [{verificationResult.distance && (<p>Distance score: ...</p>)}]
    puts in the panel: nothing for an absent distance, the falsy number
    itself (React prints a number, also 0 and NaN) or the score paragraph,
    which formats the distance with [toFixed(2)]. *)
Inductive DistanceLine :=
| NoDistanceLine
| BareNumber (n : number)
| DistanceScore (d : number).

Definition distanceLineOf (distance : option number) : DistanceLine :=
  match distance with
  | None => NoDistanceLine
  | Some d => if truthy d then DistanceScore d else BareNumber d
  end.

Record ResultPanel := {
  matchStyle : bool;   (* [styles.match] rather than [styles.noMatch] *)
  panelMessage : list Piece;
  distanceLine : DistanceLine
}.

Record View := {
  statusText : string;
  multipleFacesWarning : bool;
  lookWarning : bool;
  captureDisabled : bool;
  verifyDisabled : bool;
  resultPanel : option ResultPanel
}.

Definition render (st : State) : View :=
  {| statusText := statusMessage st;
     multipleFacesWarning := multipleFacesDetected st;
     lookWarning := negb (isLookingAtScreen st);
     captureDisabled := negb (modelsLoaded st);
     verifyDisabled := negb (isEnrolled st);
     resultPanel :=
       match verificationResult st with
       | None => None
       | Some r =>
           Some {| matchStyle := isMatch r;
                   panelMessage := message r;
                   distanceLine := distanceLineOf (distance r) |}
       end |}.

(** ** Further vocabulary for the properties *)

(** The landmark set with the two eye groups exchanged. *)
Definition swapEyes (lms : FaceApi.FaceLandmarks68) : FaceApi.FaceLandmarks68 :=
  {| FaceApi.getNose := FaceApi.getNose lms;
     FaceApi.getLeftEye := FaceApi.getRightEye lms;
     FaceApi.getRightEye := FaceApi.getLeftEye lms;
     FaceApi.getNose_tip := FaceApi.getNose_tip lms |}.

(** Is the action a successful loading of the models? *)
Definition loadsModels (a : Action) : bool :=
  match a with LoadModels true => true | _ => false end.

(** The frame of a capture or verify action. *)
Definition frameOf (a : Action) : option Detected :=
  match a with
  | CaptureFace frame | VerifyFace frame => Some frame
  | _ => None
  end.

(** ** Bounds on numbers

    Bounds are stated on the decomposition of a number into sign,
    mantissa and exponent, against a positive [M * 2^E]. *)

(** The value of [v] is at most [M * 2^E]: [v] is NaN, a zero, negative,
    or a positive [m * 2^e] with [e <= E] and [m <= M * 2^(E - e)]. *)
Definition atMost (M : positive) (E : Z) (v : spec_float) : Prop :=
  match v with
  | S754_finite false m e => (e <= E /\ Zpos m <= Zpos M * 2 ^ (E - e))%Z
  | S754_infinity false => False
  | _ => True
  end.
(** [v] is not below zero: NaN, a zero, positive or +infinity. *)
Definition notNegative (v : spec_float) : Prop :=
  match v with
  | S754_finite true _ _ | S754_infinity true => False
  | _ => True
  end.
(** The value of [v] is at least [M * 2^E]: [v] is +infinity or a positive
    [m * 2^e] with [M * 2^E <= m * 2^e], written at the smaller of the two
    exponents. *)
Definition atLeast (M : positive) (E : Z) (v : spec_float) : Prop :=
  match v with
  | S754_finite false m e =>
      ((e <= E /\ Zpos M * 2 ^ (E - e) <= Zpos m) \/
       (E < e /\ Zpos M <= Zpos m * 2 ^ (e - E)))%Z
  | S754_infinity false => True
  | _ => False
  end.

(** ** Tactics for the handlers *)

Ltac split_frame detections :=
  let d1 := fresh "d" in
  let d2 := fresh "d" in
  let rest := fresh "rest" in
  destruct detections as [| d1 [| d2 rest]].

Ltac break_if :=
  match goal with
  | |- context [match ?c with _ => _ end] =>
      match type of c with
      | bool => destruct c eqn:?
      | Canvas => destruct c eqn:?
      | option _ => destruct c eqn:?
      | Detected => destruct c eqn:?
      end
  end.

Ltac crunch_handler :=
  cbn; repeat break_if; cbn; try (intuition (auto; congruence)).

Ltac binary64 := unfold fexp, SpecFloat.emin, prec, emax in *.

(** ** Facts about binary64 arithmetic

    The primitive operations are specified by [SpecFloat] on the
    decomposition [Prim2SF] of a number into sign, mantissa and exponent. *)

Module Binary64.

Open Scope Z_scope.

Lemma abs_ltb_zero (v : number) : (abs v <? 0)%float = false.
Proof.
  rewrite ltb_spec, abs_spec.
  destruct (Prim2SF v) as [s | s | | s m e]; reflexivity.
Qed.

(** A finite number minus itself is +0. *)
Lemma sub_diag (v : number) : isFinite v = true -> (v - v)%float = 0%float.
Proof.
  unfold isFinite. intros H. apply Prim2SF_inj. rewrite sub_spec.
  destruct (Prim2SF v) as [s | s | | s m e]; try discriminate.
  - now destruct s.
  - unfold SF64sub, SFsub. now rewrite Z.sub_diag.
Qed.

(** Shifting a mantissa right, as the rounding of [SpecFloat] does it. *)
Lemma shr_1_m (mrs : shr_record) :
  0 <= shr_m mrs -> shr_m (shr_1 mrs) = Z.div2 (shr_m mrs).
Proof.
  destruct mrs as [m r s]. cbn.
  destruct m as [| p | p]; [reflexivity | | lia].
  intros _. now destruct p.
Qed.

Lemma iter_shr_1_m (n : positive) (mrs : shr_record) :
  0 <= shr_m mrs ->
  shr_m (SpecFloat.iter_pos shr_1 n mrs) = Z.shiftr (shr_m mrs) (Zpos n).
Proof.
  revert mrs.
  induction n as [n IH | n IH |]; intros mrs H; cbn [SpecFloat.iter_pos].
  - assert (H1 : 0 <= shr_m (shr_1 mrs)).
    { rewrite shr_1_m by assumption. now apply Z.div2_nonneg. }
    assert (H2 : 0 <= shr_m (SpecFloat.iter_pos shr_1 n (shr_1 mrs))).
    { rewrite IH by assumption. now apply Z.shiftr_nonneg. }
    rewrite !IH, shr_1_m, Z.div2_spec by assumption.
    rewrite !Z.shiftr_shiftr by lia. f_equal. lia.
  - assert (H2 : 0 <= shr_m (SpecFloat.iter_pos shr_1 n mrs)).
    { rewrite IH by assumption. now apply Z.shiftr_nonneg. }
    rewrite !IH by assumption.
    rewrite !Z.shiftr_shiftr by lia. f_equal. lia.
  - rewrite shr_1_m by assumption. now rewrite Z.div2_spec.
Qed.

(** A mantissa of [d] binary digits lies in [2^(d-1), 2^d). *)
Lemma digits2_pos_bounds (p : positive) :
  2 ^ (Zpos (digits2_pos p) - 1) <= Zpos p < 2 ^ Zpos (digits2_pos p).
Proof.
  induction p as [p IH | p IH |]; cbn [digits2_pos].
  - rewrite Pos2Z.inj_succ.
    replace (Z.succ (Zpos (digits2_pos p)) - 1)
      with (Z.succ (Zpos (digits2_pos p) - 1)) by lia.
    rewrite !Z.pow_succ_r by lia. lia.
  - rewrite Pos2Z.inj_succ.
    replace (Z.succ (Zpos (digits2_pos p)) - 1)
      with (Z.succ (Zpos (digits2_pos p) - 1)) by lia.
    rewrite !Z.pow_succ_r by lia. lia.
  - cbn. lia.
Qed.

Lemma digits2_pos_mul (p q : positive) :
  Zpos (digits2_pos p) + Zpos (digits2_pos q) - 1 <= Zpos (digits2_pos (p * q)).
Proof.
  pose proof (digits2_pos_bounds p) as [Hp _].
  pose proof (digits2_pos_bounds q) as [Hq _].
  pose proof (digits2_pos_bounds (p * q)) as [_ Hpq].
  set (dp := Zpos (digits2_pos p)) in *.
  set (dq := Zpos (digits2_pos q)) in *.
  set (dpq := Zpos (digits2_pos (p * q))) in *.
  assert (H : 2 ^ (dp - 1 + (dq - 1)) < 2 ^ dpq).
  { rewrite Z.pow_add_r by lia.
    apply Z.le_lt_trans with (Zpos p * Zpos q); [| now rewrite <- Pos2Z.inj_mul].
    apply Z.mul_le_mono_nonneg; try assumption; apply Z.pow_nonneg; lia. }
  apply Z.pow_lt_mono_r_iff in H; lia.
Qed.

(** Rounding keeps a positive mantissa positive as soon as the number is
    at least the smallest subnormal. *)
Lemma shr_fexp_positive (m : positive) (e : Z) (l : location) :
  emin < Zpos (digits2_pos m) + e ->
  0 < shr_m (fst (shr_fexp prec emax (Zpos m) e l)) /\
  emin <= snd (shr_fexp prec emax (Zpos m) e l).
Proof.
  intros H. unfold shr_fexp, shr. cbn [Zdigits2].
  set (d := Zpos (digits2_pos m)) in *.
  assert (Hm : shr_m (shr_record_of_loc (Zpos m) l) = Zpos m)
    by (destruct l as [| []]; reflexivity).
  destruct (fexp prec emax (d + e) - e) as [| n | n] eqn:En; cbn [fst snd].
  - rewrite Hm. binary64. lia.
  - rewrite iter_shr_1_m by (rewrite Hm; lia). rewrite Hm.
    split; [| binary64; lia].
    rewrite Z.shiftr_div_pow2 by lia.
    apply Z.div_str_pos. split; [apply Z.pow_pos_nonneg; lia |].
    pose proof (digits2_pos_bounds m) as [Hlo _]. fold d in Hlo.
    apply Z.le_trans with (2 ^ (d - 1)); [| exact Hlo].
    apply Z.pow_le_mono_r; [lia |]. binary64. lia.
  - rewrite Hm. binary64. lia.
Qed.

Lemma binary_round_aux_positive (m : positive) (e : Z) :
  emin < Zpos (digits2_pos m) + e ->
  SFltb (S754_zero false)
    (binary_round_aux prec emax false (Zpos m) e loc_Exact) = true.
Proof.
  intros H. unfold binary_round_aux.
  pose proof (shr_fexp_positive m e loc_Exact H) as [Hm1 He1].
  destruct (shr_fexp prec emax (Zpos m) e loc_Exact) as [mrs1 e1].
  cbn [fst snd] in Hm1, He1.
  set (m2 := round_nearest_even (shr_m mrs1) (loc_of_shr_record mrs1)).
  assert (Hm2 : 0 < m2).
  { unfold m2, round_nearest_even.
    destruct (loc_of_shr_record mrs1) as [| []]; try lia.
    destruct (Z.even (shr_m mrs1)); lia. }
  destruct m2 as [| p2 | p2]; try lia.
  assert (H2 : emin < Zpos (digits2_pos p2) + e1) by lia.
  pose proof (shr_fexp_positive p2 e1 loc_Exact H2) as [Hm3 _].
  destruct (shr_fexp prec emax (Zpos p2) e1 loc_Exact) as [mrs3 e3].
  cbn [fst] in Hm3.
  destruct (shr_m mrs3) as [| p3 | p3]; try lia.
  now destruct (e3 <=? emax - prec).
Qed.

(** The product of a number above the smallest subnormal with a ratio in
    [1/4, 1/2) is positive, given that it is at the two numbers next to
    the smallest subnormal. *)
Lemma mul_ratio_positive (v c : number) (mc : positive) :
  Prim2SF c = S754_finite false mc (-54) ->
  digits2_pos mc = 53%positive ->
  (0 <? 0x1p-1073 * c)%float = true ->
  (0 <? 0x1.8p-1073 * c)%float = true ->
  (0x1p-1074 <? v)%float = true ->
  (0 <? v * c)%float = true.
Proof.
  intros Hc Hd H2 H3 Hv.
  rewrite ltb_spec in Hv.
  pose proof (Prim2SF_valid v) as Hvalid.
  destruct (Prim2SF v) as [s | s | | s m e] eqn:Ev; try discriminate.
  - (* v = +infinity *)
    destruct s; [discriminate |].
    rewrite ltb_spec, mul_spec, Ev, Hc. reflexivity.
  - destruct s; [discriminate |].
    cbn in Hvalid. apply andb_true_iff in Hvalid as [Hcanon _].
    unfold canonical_mantissa in Hcanon. apply Z.eqb_eq in Hcanon.
    change (Prim2SF 0x1p-1074) with (S754_finite false 1 (-1074)) in Hv.
    unfold SFltb, SFcompare in Hv.
    destruct (Z.compare_spec (-1074) e) as [He | He | He]; try discriminate.
    + (* a subnormal with mantissa above 1 *)
      subst e.
      destruct m as [[p | p |] | [p | p |] |]; try discriminate.
      all: try (rewrite ltb_spec, mul_spec, Ev, Hc;
                apply binary_round_aux_positive;
                pose proof (digits2_pos_mul (p~1~1) mc);
                pose proof (digits2_pos_mul (p~0~1) mc);
                pose proof (digits2_pos_mul (p~1~0) mc);
                pose proof (digits2_pos_mul (p~0~0) mc);
                rewrite Hd in *; cbn [digits2_pos] in *; binary64; lia).
      * replace v with 0x1.8p-1073%float; [exact H3 |].
        apply Prim2SF_inj. now rewrite Ev.
      * replace v with 0x1p-1073%float; [exact H2 |].
        apply Prim2SF_inj. now rewrite Ev.
    + (* a normal number *)
      rewrite ltb_spec, mul_spec, Ev, Hc.
      apply binary_round_aux_positive.
      pose proof (digits2_pos_mul m mc). rewrite Hd in *.
      binary64. lia.
Qed.

Lemma mul_0_3_positive (v : number) :
  (0x1p-1074 <? v)%float = true -> (0 <? v * 0.3)%float = true.
Proof.
  now apply mul_ratio_positive with (mc := 5404319552844595%positive).
Qed.

Lemma mul_0_4_positive (v : number) :
  (0x1p-1074 <? v)%float = true -> (0 <? v * 0.4)%float = true.
Proof.
  now apply mul_ratio_positive with (mc := 7205759403792794%positive).
Qed.

End Binary64.

(** ** The gaze heuristic: properties *)

Lemma nosePoint_defined (lms : FaceApi.FaceLandmarks68) :
  exists tip, nosePoint lms = Some tip.
Proof.
  unfold nosePoint.
  destruct (nth_error (FaceApi.getNose lms) 3) as [p |] eqn:E.
  - now exists p.
  - apply nth_error_None in E.
    pose proof (FaceApi.getNose_tip lms) as L.
    apply Nat.ltb_lt in L. lia.
Qed.

Lemma looking_defined (lms : FaceApi.FaceLandmarks68) :
  exists isLooking, checkIfLookingAtScreen lms = Some isLooking.
Proof.
  unfold checkIfLookingAtScreen, noseOffset.
  destruct (nosePoint_defined lms) as [tip ->]. eauto.
Qed.

(** C7. When the two eye centres have the same abscissa (eyeXDifference is
    0) the heuristic answers [false].  It answers rather than raising: it
    is a total function of the landmarks alone, and the ratios 0.3 and 0.4
    multiply the eye distance, nothing is divided by it. *)
Theorem looking_false_when_eyes_aligned (lms : FaceApi.FaceLandmarks68) :
  eyeXDifference lms = 0%float ->
  checkIfLookingAtScreen lms = Some false.
Proof.
  intros H. unfold checkIfLookingAtScreen, noseOffset.
  destruct (nosePoint_defined lms) as [tip ->].
  rewrite H.
  change (0 * 0.3)%float with 0%float.
  unfold eyeYDifference, Math_abs.
  now rewrite Binary64.abs_ltb_zero.
Qed.

Lemma looking_false_when_eyes_aligned_witness :
  eyeXDifference alignedLandmarks = 0%float /\
  checkIfLookingAtScreen alignedLandmarks = Some false.
Proof.
  split.
  - vm_compute. reflexivity.
  - apply (looking_false_when_eyes_aligned alignedLandmarks).
    vm_compute. reflexivity.
Defined.

(** The landmarks collapsed on one point have the nose on the eyes' axis
    and level eyes, and are not taken as looking at the screen. *)
Lemma collapsed_not_looking :
  noseOffset collapsedLandmarks = Some 0%float /\
  eyeYDifference collapsedLandmarks = 0%float /\
  checkIfLookingAtScreen collapsedLandmarks = Some false.
Proof. repeat split; vm_compute; reflexivity. Qed.

(** The same at the smallest positive eye distance, whose products with
    0.3 and 0.4 round to 0. *)
Lemma tiny_not_looking :
  noseOffset tinyLandmarks = Some 0%float /\
  eyeYDifference tinyLandmarks = 0%float /\
  eyeXDifference tinyLandmarks = 0x1p-1074%float /\
  checkIfLookingAtScreen tinyLandmarks = Some false.
Proof. repeat split; vm_compute; reflexivity. Qed.

(** C8, amended. With the nose tip on the midpoint of the eye centres
    (noseOffset is 0) and level eyes (eyeYDifference is 0), the heuristic
    answers [true] as soon as the eye centres are apart by more than the
    smallest positive number, 2^-1074. *)
Theorem looking_true_when_centred (lms : FaceApi.FaceLandmarks68) :
  noseOffset lms = Some 0%float ->
  eyeYDifference lms = 0%float ->
  (0x1p-1074 <? eyeXDifference lms)%float = true ->
  checkIfLookingAtScreen lms = Some true.
Proof.
  intros Hn Hy Hx. unfold checkIfLookingAtScreen.
  rewrite Hn, Hy.
  rewrite (Binary64.mul_0_3_positive _ Hx), (Binary64.mul_0_4_positive _ Hx).
  reflexivity.
Qed.

Lemma looking_true_when_centred_witness :
  checkIfLookingAtScreen frontalLandmarks = Some true.
Proof.
  apply (looking_true_when_centred frontalLandmarks); vm_compute; reflexivity.
Defined.

(** ** Enrolling *)

(** A capture of a single frontal detection enrolls it. *)
Lemma captureFace_stores (st : State) (d : FaceApi.Detection) :
  videoRef st = true -> modelsLoaded st = true ->
  checkIfLookingAtScreen (FaceApi.landmarks d) = Some true ->
  initialFace (step st (CaptureFace (Resolved [d]))) =
    Some {| descriptor := FaceApi.descriptor d; detection := d |}.
Proof.
  intros Hv Hm Hd. unfold step, perform, captureFace.
  rewrite Hv, Hm. cbn. rewrite Hd. cbn.
  now destruct (canvasRef st).
Qed.

(** C3. A capture that reaches the detector (video mounted and models
    loaded) reports NoFace on an empty frame, MultipleFaces on two or more
    detections and NotFacingCamera on a single detection that fails the
    gaze check, and leaves the enrolled face as it was in all three cases;
    on a single frontal detection it stores that detection's descriptor as
    the enrolled face, after which [isEnrolled] is true. *)
Theorem captureFace_outcomes (st : State) (detections : list FaceApi.Detection) :
  videoRef st = true -> modelsLoaded st = true ->
  (forall c, suffers detections c ->
     In (SetStatusMessage (captureStatus c)) (captureFace st (Resolved detections)) /\
     (canvasRef st <> CanvasNoContext ->
      statusMessage (step st (CaptureFace (Resolved detections))) = captureStatus c) /\
     enrolls (captureFace st (Resolved detections)) = false /\
     initialFace (step st (CaptureFace (Resolved detections))) = initialFace st) /\
  (forall d, detections = [d] ->
     checkIfLookingAtScreen (FaceApi.landmarks d) = Some true ->
     enrolls (captureFace st (Resolved detections)) = true /\
     initialFace (step st (CaptureFace (Resolved detections))) =
       Some {| descriptor := FaceApi.descriptor d; detection := d |} /\
     isEnrolled (step st (CaptureFace (Resolved detections))) = true).
Proof.
  intros Hv Hm. unfold step, perform, captureFace.
  rewrite Hv, Hm. cbn [negb orb].
  split.
  - intros c Hc. destruct Hc as [| detections Hlen | d Hd].
    + cbn. repeat split; auto.
    + split_frame detections; cbn in Hlen; try lia.
      cbn. destruct (canvasRef st); cbn; repeat split; auto; congruence.
    + cbn. rewrite Hd. cbn.
      destruct (canvasRef st); cbn; repeat split; auto; congruence.
  - intros d -> Hd. cbn. rewrite Hd. cbn.
    destruct (canvasRef st); cbn; repeat split; auto.
Qed.

Lemma captureFace_outcomes_witness :
  isEnrolled
    (step readyState
       (CaptureFace (Resolved [face frontalLandmarks faceprint06]))) = true.
Proof.
  apply (captureFace_outcomes readyState
           [face frontalLandmarks faceprint06] eq_refl eq_refl)
    with (d := face frontalLandmarks faceprint06).
  - reflexivity.
  - vm_compute. reflexivity.
Defined.

(** ** Invariants of the session *)

Lemma run_videoRef (effects : list Effect) (st : State) :
  videoRef (run st effects) = videoRef st.
Proof.
  revert st. induction effects as [| e effects IH]; intros st; [reflexivity |].
  cbn. unfold run in IH. rewrite IH. now destruct e.
Qed.

Lemma run_initialFace (effects : list Effect) (st : State) :
  enrolls effects = false -> initialFace (run st effects) = initialFace st.
Proof.
  revert st. induction effects as [| e effects IH]; intros st H; [reflexivity |].
  cbn in H. apply orb_false_iff in H as [He H].
  cbn. unfold run in IH. rewrite (IH _ H). destruct e; try reflexivity.
  discriminate.
Qed.

(** No handler ever sets [modelsLoaded] back to false. *)
Lemma step_modelsLoaded (st : State) (a : Action) :
  modelsLoaded st = true -> modelsLoaded (step st a) = true.
Proof.
  intros H. unfold step. destruct a as [loaded | granted | frame | frame]; cbn.
  - now destruct loaded.
  - unfold startWebcam. repeat break_if; assumption.
  - unfold captureFace, drawOverlay. rewrite H.
    destruct frame as [detections |]; [split_frame detections |];
      cbn; repeat break_if; cbn; assumption.
  - unfold verifyFace, drawOverlay. rewrite H.
    destruct frame as [detections |]; [split_frame detections |];
      cbn; repeat break_if; cbn; assumption.
Qed.

Lemma steps_ready (actions : list Action) (st : State) :
  videoRef st = true -> modelsLoaded st = true ->
  videoRef (steps st actions) = true /\ modelsLoaded (steps st actions) = true.
Proof.
  revert st. induction actions as [| a actions IH]; intros st Hv Hm; [now split |].
  change (steps st (a :: actions)) with (steps (step st a) actions). apply IH.
  - unfold step. now rewrite run_videoRef.
  - now apply step_modelsLoaded.
Qed.

Lemma quiet_initialFace (actions : list Action) (st : State) :
  quiet st actions = true -> initialFace (steps st actions) = initialFace st.
Proof.
  revert st. induction actions as [| a actions IH]; intros st H; [reflexivity |].
  cbn in H. apply andb_true_iff in H as [Ha H].
  change (steps st (a :: actions)) with (steps (step st a) actions).
  rewrite (IH _ H). unfold step. apply run_initialFace.
  now apply negb_true_iff.
Qed.

Lemma step_sound (st : State) (a : Action) : sound st -> sound (step st a).
Proof.
  unfold sound, step. intros [He Hr].
  destruct a as [loaded | granted | frame | frame]; cbn.
  - destruct loaded; cbn; intuition auto.
  - unfold startWebcam. crunch_handler.
  - unfold captureFace, drawOverlay.
    destruct (videoRef st) eqn:Hv, (modelsLoaded st) eqn:Hm;
      try solve [cbn; intuition auto];
      (destruct frame as [detections |]; [split_frame detections |]);
      crunch_handler.
  - unfold verifyFace, drawOverlay.
    destruct (initialFace st) as [enrolled |] eqn:Hi;
      [| cbn; intuition congruence].
    destruct He as [Hv Hm]; [discriminate |]. rewrite Hv, Hm.
    destruct frame as [detections |]; [split_frame detections |];
      crunch_handler.
Qed.

Lemma reachable_sound (st : State) : reachable st -> sound st.
Proof.
  induction 1 as [video canvas | st a _ IH].
  - split; cbn; congruence.
  - now apply step_sound.
Qed.

Lemma enrolled_ready (st : State) (enrolled : FaceData) :
  reachable st -> initialFace st = Some enrolled ->
  videoRef st = true /\ modelsLoaded st = true.
Proof.
  intros Hr Hi. apply (reachable_sound st Hr). congruence.
Qed.

Lemma reachable_steps (actions : list Action) (st : State) :
  reachable st -> reachable (steps st actions).
Proof.
  revert st. induction actions as [| a actions IH]; intros st H; [exact H |].
  change (steps st (a :: actions)) with (steps (step st a) actions).
  apply IH. now constructor.
Qed.

(** ** The distance of two descriptors *)

Lemma euclideanDistance_defined (a b : FaceApi.FaceDescriptor) :
  exists d, FaceApi.euclideanDistance (FaceApi.values a) (FaceApi.values b) = Some d.
Proof.
  unfold FaceApi.euclideanDistance.
  pose proof (FaceApi.values_length a) as Ha.
  pose proof (FaceApi.values_length b) as Hb.
  apply Nat.eqb_eq in Ha, Hb. rewrite Ha, Hb. cbn. eauto.
Qed.

Lemma sum_of_squares_same (arr : list number) :
  forallb isFinite arr = true ->
  fold_left (fun res diff => (res + Math_pow2 diff)%float)
    (map (fun vw => (fst vw - snd vw)%float) (combine arr arr)) 0%float = 0%float.
Proof.
  induction arr as [| v arr IH]; intros H; [reflexivity |].
  cbn in H. apply andb_true_iff in H as [Hv H].
  cbn. rewrite (Binary64.sub_diag v Hv).
  change (0 + Math_pow2 0)%float with 0%float. now apply IH.
Qed.

(** A vector of finite numbers is at distance 0 from itself. *)
Lemma euclideanDistance_same (arr : list number) :
  forallb isFinite arr = true ->
  FaceApi.euclideanDistance arr arr = Some 0%float.
Proof.
  intros H. unfold FaceApi.euclideanDistance.
  rewrite Nat.eqb_refl, (sum_of_squares_same arr H). reflexivity.
Qed.

(** ** Verifying *)

(** The setter calls of a verification that reaches the comparison. *)
Lemma verifyFace_compares (st : State) (enrolled : FaceData)
      (probe : FaceApi.Detection) (d : number) :
  initialFace st = Some enrolled ->
  videoRef st = true -> modelsLoaded st = true ->
  checkIfLookingAtScreen (FaceApi.landmarks probe) = Some true ->
  FaceApi.euclideanDistance (FaceApi.values (descriptor enrolled))
    (FaceApi.values (FaceApi.descriptor probe)) = Some d ->
  verifyFace st (Resolved [probe]) =
    SetStatusMessage "Verifying face" :: SetIsLookingAtScreen true ::
    SetVerificationResult (comparisonVerdict d) ::
    drawOverlay (canvasRef st)
      [SetStatusMessage
         ("Verification complete: " ++
          (if (d <? threshold)%float then "Match confirmed!"
           else "Different person detected."))].
Proof.
  intros Hi Hv Hm Hl Hd. unfold verifyFace.
  rewrite Hi, Hv, Hm. cbn. rewrite Hl. cbn. rewrite Hd. reflexivity.
Qed.

Lemma verifyFace_stores (st : State) (enrolled : FaceData)
      (probe : FaceApi.Detection) :
  initialFace st = Some enrolled ->
  videoRef st = true -> modelsLoaded st = true ->
  checkIfLookingAtScreen (FaceApi.landmarks probe) = Some true ->
  exists d,
    FaceApi.euclideanDistance (FaceApi.values (descriptor enrolled))
      (FaceApi.values (FaceApi.descriptor probe)) = Some d /\
    verificationResult (step st (VerifyFace (Resolved [probe]))) =
      Some (comparisonVerdict d).
Proof.
  intros Hi Hv Hm Hl.
  destruct (euclideanDistance_defined (descriptor enrolled)
              (FaceApi.descriptor probe)) as [d Hd].
  exists d. split; [exact Hd |].
  unfold step, perform.
  rewrite (verifyFace_compares st enrolled probe d Hi Hv Hm Hl Hd).
  unfold drawOverlay. now destruct (canvasRef st).
Qed.

(** Every verdict a verification produces is either the failed verdict of
    the capture condition the frame is in, or the verdict of a comparison
    on a frame whose single detection passes the gaze check. *)
Lemma verdicts_verifyFace (st : State) (frame : Detected) (r : VerificationResult) :
  In r (verdicts (verifyFace st frame)) ->
  exists enrolled detections,
    initialFace st = Some enrolled /\ frame = Resolved detections /\
    ((exists c, suffers detections c /\ r = failedVerdict c) \/
     (exists probe d,
        detections = [probe] /\
        checkIfLookingAtScreen (FaceApi.landmarks probe) = Some true /\
        FaceApi.euclideanDistance (FaceApi.values (descriptor enrolled))
          (FaceApi.values (FaceApi.descriptor probe)) = Some d /\
        r = comparisonVerdict d)).
Proof.
  unfold verifyFace.
  destruct (initialFace st) as [enrolled |]; [| intros []].
  destruct (negb (videoRef st) || negb (modelsLoaded st)); [intros [] |].
  destruct frame as [detections |]; [| intros []].
  intros H. exists enrolled, detections. do 2 (split; [reflexivity |]).
  split_frame detections.
  - left. exists NoFace. split; [constructor |].
    cbn in H. now destruct H as [<- | []].
  - cbn in H.
    destruct (checkIfLookingAtScreen (FaceApi.landmarks d)) as [[|] |] eqn:Hl;
      cbn in H.
    + right.
      destruct (FaceApi.euclideanDistance _ _) as [dist |] eqn:Hd; [| destruct H].
      exists d, dist. repeat (split; [assumption || reflexivity |]).
      unfold drawOverlay in H.
      destruct (canvasRef st); cbn in H; now destruct H as [<- | []].
    + left. exists NotFacingCamera. split; [now constructor |].
      unfold drawOverlay in H.
      destruct (canvasRef st); cbn in H; now destruct H as [<- | []].
    + destruct H.
  - left. exists MultipleFaces. split; [constructor; cbn; lia |].
    cbn in H. unfold drawOverlay in H.
    destruct (canvasRef st); cbn in H; now destruct H as [<- | []].
Qed.

Lemma verifyFace_fails (st : State) (enrolled : FaceData)
      (detections : list FaceApi.Detection) (c : CaptureCondition) :
  initialFace st = Some enrolled ->
  videoRef st = true -> modelsLoaded st = true ->
  suffers detections c ->
  verdicts (verifyFace st (Resolved detections)) = [failedVerdict c] /\
  verificationResult (step st (VerifyFace (Resolved detections))) =
    Some (failedVerdict c) /\
  initialFace (step st (VerifyFace (Resolved detections))) = initialFace st /\
  ~ In (SetStatusMessage "Error at verifying the face.")
       (verifyFace st (Resolved detections)).
Proof.
  intros Hi Hv Hm Hc. unfold step, perform, verifyFace, drawOverlay.
  rewrite Hi, Hv, Hm. cbn [negb orb].
  destruct Hc as [| detections Hlen | d Hd].
  - cbn. rewrite Hi. intuition congruence.
  - split_frame detections; cbn in Hlen; try lia.
    cbn. destruct (canvasRef st); cbn; rewrite Hi; intuition congruence.
  - cbn. rewrite Hd. cbn.
    destruct (canvasRef st); cbn; rewrite Hi; intuition congruence.
Qed.

(** C1. In a session with an enrolled face, verifying a frame whose single
    detection passes the gaze check stores a verdict whose [isMatch] is
    [distance < 0.6], for the Euclidean distance between the enrolled and
    the probe descriptor; the comparison is strict, so a distance of
    exactly 0.6 is no match. *)
Theorem isMatch_below_threshold (st : State) (enrolled : FaceData)
        (probe : FaceApi.Detection) :
  reachable st -> initialFace st = Some enrolled ->
  checkIfLookingAtScreen (FaceApi.landmarks probe) = Some true ->
  exists d r,
    FaceApi.euclideanDistance (FaceApi.values (descriptor enrolled))
      (FaceApi.values (FaceApi.descriptor probe)) = Some d /\
    verificationResult (step st (VerifyFace (Resolved [probe]))) = Some r /\
    distance r = Some d /\
    isMatch r = (d <? 0.6)%float /\
    (d = 0.6%float -> isMatch r = false).
Proof.
  intros Hr Hi Hl.
  destruct (enrolled_ready st enrolled Hr Hi) as [Hv Hm].
  destruct (verifyFace_stores st enrolled probe Hi Hv Hm Hl) as (d & Hd & Hs).
  exists d, (comparisonVerdict d). repeat (split; [assumption || reflexivity |]).
  now intros ->.
Qed.

Lemma reachable_enrolledWith (d : FaceApi.FaceDescriptor) :
  reachable (enrolledWith d).
Proof. unfold enrolledWith, readyState. repeat constructor. Defined.

Lemma isMatch_below_threshold_witness :
  exists d r,
    FaceApi.euclideanDistance (FaceApi.values faceprint06)
      (FaceApi.values origin) = Some d /\
    verificationResult
      (step (enrolledWith faceprint06)
         (VerifyFace (Resolved [face frontalLandmarks origin]))) = Some r /\
    distance r = Some d /\
    isMatch r = (d <? 0.6)%float /\
    (d = 0.6%float -> isMatch r = false).
Proof.
  apply (isMatch_below_threshold (enrolledWith faceprint06)
           {| descriptor := faceprint06;
              detection := face frontalLandmarks faceprint06 |}
           (face frontalLandmarks origin)).
  - apply reachable_enrolledWith.
  - reflexivity.
  - vm_compute. reflexivity.
Defined.

(** The boundary itself: enrolled and probe at distance exactly 0.6. *)
Example verdict_at_threshold :
  verificationResult
    (step (enrolledWith faceprint06)
       (VerifyFace (Resolved [face frontalLandmarks origin]))) =
  Some {| isMatch := false;
          message := [Text "Different person detected. ("; Num 40%float;
                      Text "% similarity)"];
          distance := Some 0.6%float;
          confidence := Some 40%float |}.
Proof. vm_compute. reflexivity. Qed.

(** Two identical descriptors with a NaN entry are at distance NaN: the
    verdict is no match and its confidence is NaN. *)
Lemma identical_nan_descriptors_no_match :
  reachable (enrolledWith nanprint) /\
  initialFace (enrolledWith nanprint) =
    Some {| descriptor := nanprint; detection := face frontalLandmarks nanprint |} /\
  checkIfLookingAtScreen frontalLandmarks = Some true /\
  verificationResult
    (step (enrolledWith nanprint)
       (VerifyFace (Resolved [face frontalLandmarks nanprint]))) =
  Some {| isMatch := false;
          message := [Text "Different person detected. ("; Num nan;
                      Text "% similarity)"];
          distance := Some nan;
          confidence := Some nan |}.
Proof.
  split; [apply reachable_enrolledWith |].
  repeat split; vm_compute; reflexivity.
Qed.

(** C2, amended. The verdict of a comparison carries the distance and, as
    its confidence, [Math.round((1 - distance) * 100)], whatever its sign:
    at distance 1.3 the confidence is -30, and for an enrolled and a probe
    descriptor with the same entries, all of them finite, the distance is
    0, the verdict a match and the confidence 100. *)
Theorem confidence_is_rounded_percentage (st : State) (enrolled : FaceData)
        (probe : FaceApi.Detection) :
  reachable st -> initialFace st = Some enrolled ->
  checkIfLookingAtScreen (FaceApi.landmarks probe) = Some true ->
  exists d r,
    FaceApi.euclideanDistance (FaceApi.values (descriptor enrolled))
      (FaceApi.values (FaceApi.descriptor probe)) = Some d /\
    verificationResult (step st (VerifyFace (Resolved [probe]))) = Some r /\
    distance r = Some d /\
    confidence r = Some (Math_round ((1 - d) * 100)%float) /\
    (d = 1.3%float -> confidence r = Some (-30)%float) /\
    (FaceApi.values (descriptor enrolled) =
       FaceApi.values (FaceApi.descriptor probe) ->
     forallb isFinite (FaceApi.values (descriptor enrolled)) = true ->
     d = 0%float /\ isMatch r = true /\ confidence r = Some 100%float).
Proof.
  intros Hr Hi Hl.
  destruct (enrolled_ready st enrolled Hr Hi) as [Hv Hm].
  destruct (verifyFace_stores st enrolled probe Hi Hv Hm Hl) as (d & Hd & Hs).
  exists d, (comparisonVerdict d). repeat (split; [assumption || reflexivity |]).
  split.
  - now intros ->.
  - intros Hsame Hfinite. rewrite <- Hsame in Hd.
    rewrite (euclideanDistance_same _ Hfinite) in Hd.
    injection Hd as <-. repeat split; reflexivity.
Qed.

Lemma confidence_is_rounded_percentage_witness :
  exists d r,
    FaceApi.euclideanDistance (FaceApi.values faceprint13)
      (FaceApi.values origin) = Some d /\
    verificationResult
      (step (enrolledWith faceprint13)
         (VerifyFace (Resolved [face frontalLandmarks origin]))) = Some r /\
    distance r = Some d /\
    confidence r = Some (Math_round ((1 - d) * 100)%float) /\
    (d = 1.3%float -> confidence r = Some (-30)%float) /\
    (FaceApi.values faceprint13 = FaceApi.values origin ->
     forallb isFinite (FaceApi.values faceprint13) = true ->
     d = 0%float /\ isMatch r = true /\ confidence r = Some 100%float).
Proof.
  apply (confidence_is_rounded_percentage (enrolledWith faceprint13)
           {| descriptor := faceprint13;
              detection := face frontalLandmarks faceprint13 |}
           (face frontalLandmarks origin)).
  - apply reachable_enrolledWith.
  - reflexivity.
  - vm_compute. reflexivity.
Defined.

(** The two cases of C2 on sample faces. *)
Example verdict_at_distance_1_3 :
  verificationResult
    (step (enrolledWith faceprint13)
       (VerifyFace (Resolved [face frontalLandmarks origin]))) =
  Some {| isMatch := false;
          message := [Text "Different person detected. ("; Num (-30)%float;
                      Text "% similarity)"];
          distance := Some 1.3%float;
          confidence := Some (-30)%float |}.
Proof. vm_compute. reflexivity. Qed.

Example verdict_of_same_descriptor :
  verificationResult
    (step (enrolledWith faceprint13)
       (VerifyFace (Resolved [face frontalLandmarks faceprint13]))) =
  Some {| isMatch := true;
          message := [Text "Match confirmed! ("; Num 100%float;
                      Text "% confidence)"];
          distance := Some 0%float;
          confidence := Some 100%float |}.
Proof. vm_compute. reflexivity. Qed.

(** C4. In a session with an enrolled face, verifying a frame that is
    empty, has several detections, or has a single detection failing the
    gaze check stores a verdict with [isMatch = false] and the message of
    that condition; the handler's catch branch is not taken, and the three
    messages are pairwise different. *)
Theorem verifyFace_capture_failures (st : State) (enrolled : FaceData)
        (detections : list FaceApi.Detection) (c : CaptureCondition) :
  reachable st -> initialFace st = Some enrolled ->
  suffers detections c ->
  exists r,
    verificationResult (step st (VerifyFace (Resolved detections))) = Some r /\
    verdicts (verifyFace st (Resolved detections)) = [r] /\
    isMatch r = false /\
    message r = [Text (verifyText c)] /\
    (forall c', verifyText c' = verifyText c -> c' = c) /\
    ~ In (SetStatusMessage "Error at verifying the face.")
         (verifyFace st (Resolved detections)).
Proof.
  intros Hr Hi Hc.
  destruct (enrolled_ready st enrolled Hr Hi) as [Hv Hm].
  destruct (verifyFace_fails st enrolled detections c Hi Hv Hm Hc)
    as (Hvs & Hs & _ & Hcatch).
  exists (failedVerdict c). repeat (split; [assumption || reflexivity |]).
  split; [| exact Hcatch].
  intros c'. destruct c, c'; (reflexivity || discriminate).
Qed.

Lemma verifyFace_capture_failures_witness :
  exists r,
    verificationResult
      (step (enrolledWith faceprint06)
         (VerifyFace (Resolved [face turnedLandmarks faceprint06]))) = Some r /\
    verdicts
      (verifyFace (enrolledWith faceprint06)
         (Resolved [face turnedLandmarks faceprint06])) = [r] /\
    isMatch r = false /\
    message r = [Text (verifyText NotFacingCamera)] /\
    (forall c', verifyText c' = verifyText NotFacingCamera -> c' = NotFacingCamera) /\
    ~ In (SetStatusMessage "Error at verifying the face.")
         (verifyFace (enrolledWith faceprint06)
            (Resolved [face turnedLandmarks faceprint06])).
Proof.
  apply (verifyFace_capture_failures (enrolledWith faceprint06)
           {| descriptor := faceprint06;
              detection := face frontalLandmarks faceprint06 |}
           [face turnedLandmarks faceprint06] NotFacingCamera).
  - apply reachable_enrolledWith.
  - reflexivity.
  - constructor. vm_compute. reflexivity.
Defined.

(** C5. Verifying while no face is enrolled only sets the status to the
    request to capture a face first: no distance is computed and no
    verdict produced, and apart from the status text the state is as it
    was. *)
Theorem verifyFace_not_enrolled (st : State) (frame : Detected) :
  initialFace st = None ->
  verifyFace st frame = [SetStatusMessage "Please capture your initial face first"] /\
  verdicts (verifyFace st frame) = [] /\
  step st (VerifyFace frame) =
    {| videoRef := videoRef st; canvasRef := canvasRef st;
       modelsLoaded := modelsLoaded st; initialFace := None;
       verificationResult := verificationResult st;
       statusMessage := "Please capture your initial face first";
       multipleFacesDetected := multipleFacesDetected st;
       isLookingAtScreen := isLookingAtScreen st |}.
Proof.
  intros Hi. unfold step, perform, verifyFace. rewrite Hi. cbn.
  now rewrite Hi.
Qed.

Lemma verifyFace_not_enrolled_witness :
  verifyFace readyState (Resolved [face frontalLandmarks faceprint06]) =
    [SetStatusMessage "Please capture your initial face first"] /\
  verdicts
    (verifyFace readyState (Resolved [face frontalLandmarks faceprint06])) = [] /\
  step readyState (VerifyFace (Resolved [face frontalLandmarks faceprint06])) =
    {| videoRef := videoRef readyState; canvasRef := canvasRef readyState;
       modelsLoaded := modelsLoaded readyState; initialFace := None;
       verificationResult := verificationResult readyState;
       statusMessage := "Please capture your initial face first";
       multipleFacesDetected := multipleFacesDetected readyState;
       isLookingAtScreen := isLookingAtScreen readyState |}.
Proof.
  apply (verifyFace_not_enrolled readyState
           (Resolved [face frontalLandmarks faceprint06])).
  reflexivity.
Defined.

(** C6. After a face A and then a face B have been enrolled, and as long
    as no later action enrolls again, the enrolled face is B's: verifying a
    frontal probe compares it with B's descriptor, whatever A was. *)
Theorem reenrolling_replaces (st : State) (faceA faceB : FaceApi.Detection)
        (between after : list Action) :
  videoRef st = true -> modelsLoaded st = true ->
  checkIfLookingAtScreen (FaceApi.landmarks faceA) = Some true ->
  checkIfLookingAtScreen (FaceApi.landmarks faceB) = Some true ->
  quiet
    (step (steps (step st (CaptureFace (Resolved [faceA]))) between)
       (CaptureFace (Resolved [faceB]))) after = true ->
  let st' :=
    steps
      (step (steps (step st (CaptureFace (Resolved [faceA]))) between)
         (CaptureFace (Resolved [faceB]))) after in
  initialFace (step st (CaptureFace (Resolved [faceA]))) =
    Some {| descriptor := FaceApi.descriptor faceA; detection := faceA |} /\
  initialFace st' =
    Some {| descriptor := FaceApi.descriptor faceB; detection := faceB |} /\
  forall probe,
    checkIfLookingAtScreen (FaceApi.landmarks probe) = Some true ->
    exists d,
      FaceApi.euclideanDistance (FaceApi.values (FaceApi.descriptor faceB))
        (FaceApi.values (FaceApi.descriptor probe)) = Some d /\
      verificationResult (step st' (VerifyFace (Resolved [probe]))) =
        Some (comparisonVerdict d).
Proof.
  intros Hv Hm HA HB Hq st'.
  set (stA := step st (CaptureFace (Resolved [faceA]))) in *.
  set (stA' := steps stA between) in *.
  set (stB := step stA' (CaptureFace (Resolved [faceB]))) in *.
  assert (HstA : videoRef stA = true /\ modelsLoaded stA = true).
  { apply (steps_ready [CaptureFace (Resolved [faceA])] st Hv Hm). }
  assert (HstA' : videoRef stA' = true /\ modelsLoaded stA' = true).
  { now apply steps_ready. }
  assert (HstB : videoRef stB = true /\ modelsLoaded stB = true).
  { apply (steps_ready [CaptureFace (Resolved [faceB])] stA'); tauto. }
  assert (Hst' : videoRef st' = true /\ modelsLoaded st' = true).
  { now apply steps_ready. }
  split.
  { apply (captureFace_stores st faceA Hv Hm HA). }
  assert (Hi : initialFace st' =
               Some {| descriptor := FaceApi.descriptor faceB; detection := faceB |}).
  { unfold st'. rewrite (quiet_initialFace after stB Hq).
    destruct HstA' as [Hv' Hm']. apply (captureFace_stores stA' faceB Hv' Hm' HB). }
  split; [exact Hi |].
  intros probe Hl. destruct Hst' as [Hv' Hm'].
  apply (verifyFace_stores st' _ probe Hi Hv' Hm' Hl).
Qed.

Lemma reenrolling_replaces_witness :
  let st' :=
    steps
      (step
         (steps
            (step readyState
               (CaptureFace (Resolved [face frontalLandmarks faceprint06])))
            [VerifyFace (Resolved [])])
         (CaptureFace (Resolved [face frontalLandmarks faceprint13])))
      [VerifyFace (Resolved []); CaptureFace (Resolved []); LoadModels false] in
  initialFace
    (step readyState
       (CaptureFace (Resolved [face frontalLandmarks faceprint06]))) =
    Some {| descriptor := faceprint06;
            detection := face frontalLandmarks faceprint06 |} /\
  initialFace st' =
    Some {| descriptor := faceprint13;
            detection := face frontalLandmarks faceprint13 |} /\
  forall probe,
    checkIfLookingAtScreen (FaceApi.landmarks probe) = Some true ->
    exists d,
      FaceApi.euclideanDistance (FaceApi.values faceprint13)
        (FaceApi.values (FaceApi.descriptor probe)) = Some d /\
      verificationResult (step st' (VerifyFace (Resolved [probe]))) =
        Some (comparisonVerdict d).
Proof.
  apply (reenrolling_replaces readyState
           (face frontalLandmarks faceprint06)
           (face frontalLandmarks faceprint13)
           [VerifyFace (Resolved [])]
           [VerifyFace (Resolved []); CaptureFace (Resolved []); LoadModels false]).
  - reflexivity.
  - reflexivity.
  - vm_compute. reflexivity.
  - vm_compute. reflexivity.
  - vm_compute. reflexivity.
Defined.

(** After enrolling 0.6 and then 1.3, a probe at the origin is at distance
    1.3, not 0.6. *)
Example verdict_after_reenrolling :
  verificationResult
    (steps readyState
       [CaptureFace (Resolved [face frontalLandmarks faceprint06]);
        CaptureFace (Resolved [face frontalLandmarks faceprint13]);
        VerifyFace (Resolved [face frontalLandmarks origin])]) =
  Some (comparisonVerdict 1.3).
Proof. vm_compute. reflexivity. Qed.

(** With a face enrolled, an empty frame yields a verdict all the same. *)
Lemma verdict_on_empty_frame :
  reachable (enrolledWith faceprint06) /\
  isEnrolled (enrolledWith faceprint06) = true /\
  verdicts (verifyFace (enrolledWith faceprint06) (Resolved [])) =
    [{| isMatch := false;
        message := [Text "No face detected for verification."];
        distance := None; confidence := None |}].
Proof.
  split; [apply reachable_enrolledWith |].
  split; vm_compute; reflexivity.
Qed.

(** C9, amended. A verification produces a verdict only when a face is
    enrolled and the detector has answered; a verdict that reports a
    match, a distance or a confidence is produced only when, besides, the
    frame has exactly one detection and that detection passes the gaze
    check. *)
Theorem verdict_requires (st : State) (frame : Detected) (r : VerificationResult) :
  In r (verdicts (verifyFace st frame)) ->
  isEnrolled st = true /\
  exists detections,
    frame = Resolved detections /\
    (isMatch r = true \/ distance r <> None \/ confidence r <> None ->
     exists probe,
       detections = [probe] /\
       checkIfLookingAtScreen (FaceApi.landmarks probe) = Some true).
Proof.
  intros H.
  destruct (verdicts_verifyFace st frame r H)
    as (enrolled & detections & Hi & -> & Hcase).
  split; [unfold isEnrolled; now rewrite Hi |].
  exists detections. split; [reflexivity |].
  destruct Hcase as [(c & _ & ->) | (probe & d & -> & Hl & _)].
  - cbn. intros [H' | [H' | H']]; congruence.
  - intros _. now exists probe.
Qed.

Lemma verdict_requires_witness :
  isEnrolled (enrolledWith faceprint06) = true /\
  exists detections,
    Resolved [face frontalLandmarks origin] = Resolved detections /\
    (isMatch (comparisonVerdict 0.6) = true \/
     distance (comparisonVerdict 0.6) <> None \/
     confidence (comparisonVerdict 0.6) <> None ->
     exists probe,
       detections = [probe] /\
       checkIfLookingAtScreen (FaceApi.landmarks probe) = Some true).
Proof.
  apply (verdict_requires (enrolledWith faceprint06)
           (Resolved [face frontalLandmarks origin])
           (comparisonVerdict 0.6)).
  vm_compute. left. reflexivity.
Defined.

(** C10. A verdict produced under a capture condition has [isMatch = false]
    and a message, and neither distance nor confidence; a verdict produced
    by a completed comparison has both. *)
Theorem verdict_fields (st : State) (frame : Detected) (r : VerificationResult) :
  In r (verdicts (verifyFace st frame)) ->
  exists detections,
    frame = Resolved detections /\
    ((exists c,
        suffers detections c /\
        isMatch r = false /\ message r = [Text (verifyText c)] /\
        distance r = None /\ confidence r = None) \/
     (exists enrolled probe d,
        initialFace st = Some enrolled /\
        detections = [probe] /\
        checkIfLookingAtScreen (FaceApi.landmarks probe) = Some true /\
        FaceApi.euclideanDistance (FaceApi.values (descriptor enrolled))
          (FaceApi.values (FaceApi.descriptor probe)) = Some d /\
        distance r = Some d /\
        confidence r = Some (Math_round ((1 - d) * 100)%float))).
Proof.
  intros H.
  destruct (verdicts_verifyFace st frame r H)
    as (enrolled & detections & Hi & -> & Hcase).
  exists detections. split; [reflexivity |].
  destruct Hcase as [(c & Hc & ->) | (probe & d & -> & Hl & Hd & ->)].
  - left. exists c. now repeat split.
  - right. exists enrolled, probe, d. now repeat split.
Qed.

Lemma verdict_fields_witness :
  exists detections,
    Resolved [face turnedLandmarks origin] = Resolved detections /\
    ((exists c,
        suffers detections c /\
        isMatch (failedVerdict NotFacingCamera) = false /\
        message (failedVerdict NotFacingCamera) = [Text (verifyText c)] /\
        distance (failedVerdict NotFacingCamera) = None /\
        confidence (failedVerdict NotFacingCamera) = None) \/
     (exists enrolled probe d,
        initialFace (enrolledWith faceprint06) = Some enrolled /\
        detections = [probe] /\
        checkIfLookingAtScreen (FaceApi.landmarks probe) = Some true /\
        FaceApi.euclideanDistance (FaceApi.values (descriptor enrolled))
          (FaceApi.values (FaceApi.descriptor probe)) = Some d /\
        distance (failedVerdict NotFacingCamera) = Some d /\
        confidence (failedVerdict NotFacingCamera) =
          Some (Math_round ((1 - d) * 100)%float))).
Proof.
  apply (verdict_fields (enrolledWith faceprint06)
           (Resolved [face turnedLandmarks origin])
           (failedVerdict NotFacingCamera)).
  vm_compute. left. reflexivity.
Defined.

(** ** Which handler does what *)

Lemma verdicts_captureFace (st : State) (frame : Detected) :
  verdicts (captureFace st frame) = [].
Proof.
  unfold captureFace, drawOverlay.
  destruct frame as [detections |]; [split_frame detections |];
    cbn; repeat break_if; reflexivity.
Qed.

Lemma enrolls_verifyFace (st : State) (frame : Detected) :
  enrolls (verifyFace st frame) = false.
Proof.
  unfold verifyFace, drawOverlay.
  destruct frame as [detections |]; [split_frame detections |];
    cbn; repeat break_if; reflexivity.
Qed.

Lemma run_verificationResult (effects : list Effect) (st : State) :
  verdicts effects = [] ->
  verificationResult (run st effects) = verificationResult st.
Proof.
  revert st. induction effects as [| e effects IH]; intros st H; [reflexivity |].
  destruct e; cbn in H; try discriminate;
    cbn; unfold run in IH; now rewrite (IH _ H).
Qed.

Lemma enrolls_captureFace (st : State) (frame : Detected) :
  enrolls (captureFace st frame) = true ->
  exists d,
    frame = Resolved [d] /\
    videoRef st = true /\ modelsLoaded st = true /\
    checkIfLookingAtScreen (FaceApi.landmarks d) = Some true.
Proof.
  unfold captureFace, drawOverlay.
  destruct (videoRef st), (modelsLoaded st); cbn; try discriminate.
  destruct frame as [detections |]; [split_frame detections |];
    cbn; try discriminate.
  - destruct (checkIfLookingAtScreen (FaceApi.landmarks d)) as [[|] |] eqn:Hl;
      cbn; try discriminate.
    + intros _. exists d. now repeat split.
    + destruct (canvasRef st); discriminate.
  - destruct (canvasRef st); discriminate.
Qed.

(** An action stores an enrolled face exactly when it is a capture, past
    the guard, of a frame whose single detection passes the gaze check:
    neither verifying, nor loading the models, nor starting the webcam
    ever enrolls. *)
Theorem enrolls_iff_frontal_capture (st : State) (a : Action) :
  enrolls (perform st a) = true <->
  exists d,
    a = CaptureFace (Resolved [d]) /\
    videoRef st = true /\ modelsLoaded st = true /\
    checkIfLookingAtScreen (FaceApi.landmarks d) = Some true.
Proof.
  split.
  - destruct a as [loaded | granted | frame | frame]; cbn.
    + destruct loaded; discriminate.
    + unfold startWebcam. repeat break_if; discriminate.
    + intros H. destruct (enrolls_captureFace st frame H) as (d & -> & Hd).
      now exists d.
    + now rewrite enrolls_verifyFace.
  - intros (d & -> & Hv & Hm & Hl). cbn. unfold captureFace, drawOverlay.
    rewrite Hv, Hm. cbn. rewrite Hl. cbn. now destruct (canvasRef st).
Qed.

(** A verification never changes the enrolled face or the loaded models,
    whatever the state and the frame. *)
Theorem verifyFace_keeps_enrollment (st : State) (frame : Detected) :
  initialFace (step st (VerifyFace frame)) = initialFace st /\
  modelsLoaded (step st (VerifyFace frame)) = modelsLoaded st.
Proof.
  split.
  - unfold step, perform. apply run_initialFace, enrolls_verifyFace.
  - unfold step, perform, verifyFace, drawOverlay.
    destruct frame as [detections |]; [split_frame detections |];
      cbn; repeat break_if; reflexivity.
Qed.

(** A capture never touches the stored verdict: the verdict obtained
    against the former reference face stays in place when a new face is
    enrolled. *)
Theorem captureFace_keeps_verdict (st : State) (frame : Detected) :
  verificationResult (step st (CaptureFace frame)) = verificationResult st.
Proof.
  unfold step, perform. apply run_verificationResult, verdicts_captureFace.
Qed.

(** A match against one face is still the displayed verdict after another
    face has been enrolled. *)
Example stale_verdict_after_reenrolling :
  verificationResult
    (steps (enrolledWith faceprint13)
       [VerifyFace (Resolved [face frontalLandmarks faceprint13]);
        CaptureFace (Resolved [face frontalLandmarks origin])]) =
  Some (comparisonVerdict 0).
Proof. vm_compute. reflexivity. Qed.

(** ** What persists through a session *)




Lemma run_multipleFacesDetected (effects : list Effect) (st : State) :
  forallb
    (fun e => match e with SetMultipleFacesDetected false => false | _ => true end)
    effects = true ->
  multipleFacesDetected st = true ->
  multipleFacesDetected (run st effects) = true.
Proof.
  revert st. induction effects as [| e effects IH]; intros st H Hf; [exact Hf |].
  cbn in H. apply andb_true_iff in H as [He H].
  cbn. unfold run in IH. apply IH; [exact H |].
  destruct e as [| | | | [|] |]; cbn; (assumption || reflexivity || discriminate).
Qed.

Lemma perform_never_clears_flag (st : State) (a : Action) :
  forallb
    (fun e => match e with SetMultipleFacesDetected false => false | _ => true end)
    (perform st a) = true.
Proof.
  destruct a as [loaded | granted | frame | frame]; cbn.
  - now destruct loaded.
  - unfold startWebcam. repeat break_if; reflexivity.
  - unfold captureFace, drawOverlay.
    destruct frame as [detections |]; [split_frame detections |];
      cbn; repeat break_if; reflexivity.
  - unfold verifyFace, drawOverlay.
    destruct frame as [detections |]; [split_frame detections |];
      cbn; repeat break_if; reflexivity.
Qed.

(** The multiple-faces warning is raised by a capture or, with a face
    enrolled, a verification that gets past the guard with two or more
    detections, and nothing ever lowers it: once raised it stays through
    every later action, also a successful capture of a single face. *)
Theorem multiple_faces_warning_sticks (st : State)
        (detections : list FaceApi.Detection) (a : Action) (actions : list Action) :
  videoRef st = true -> modelsLoaded st = true ->
  2 <= length detections ->
  a = CaptureFace (Resolved detections) \/
  (a = VerifyFace (Resolved detections) /\ isEnrolled st = true) ->
  multipleFacesDetected (steps (step st a) actions) = true.
Proof.
  intros Hv Hm Hlen Ha.
  assert (H : multipleFacesDetected (step st a) = true).
  { unfold step, perform.
    destruct Ha as [-> | [-> He]].
    - unfold captureFace, drawOverlay. rewrite Hv, Hm.
      split_frame detections; cbn in Hlen; try lia.
      cbn. now destruct (canvasRef st).
    - unfold verifyFace, drawOverlay, isEnrolled in *.
      destruct (initialFace st); [| discriminate]. rewrite Hv, Hm.
      split_frame detections; cbn in Hlen; try lia.
      cbn. now destruct (canvasRef st). }
  revert H. generalize (step st a).
  induction actions as [| a' actions IH]; intros st' H; [exact H |].
  change (steps st' (a' :: actions)) with (steps (step st' a') actions).
  apply IH. unfold step.
  now apply run_multipleFacesDetected; [apply perform_never_clears_flag |].
Qed.

Lemma multiple_faces_warning_sticks_witness :
  multipleFacesDetected
    (steps
       (step readyState
          (CaptureFace (Resolved [face frontalLandmarks origin;
                                  face frontalLandmarks faceprint06])))
       [CaptureFace (Resolved [face frontalLandmarks origin]);
        VerifyFace (Resolved [face frontalLandmarks origin])]) = true.
Proof.
  apply (multiple_faces_warning_sticks readyState
           [face frontalLandmarks origin; face frontalLandmarks faceprint06]
           (CaptureFace (Resolved [face frontalLandmarks origin;
                                   face frontalLandmarks faceprint06]))
           [CaptureFace (Resolved [face frontalLandmarks origin]);
            VerifyFace (Resolved [face frontalLandmarks origin])]).
  - reflexivity.
  - reflexivity.
  - cbn. lia.
  - left. reflexivity.
Defined.

Lemma step_without_models (st : State) (a : Action) :
  modelsLoaded st = false -> loadsModels a = false ->
  modelsLoaded (step st a) = false /\
  initialFace (step st a) = initialFace st /\
  verificationResult (step st a) = verificationResult st /\
  multipleFacesDetected (step st a) = multipleFacesDetected st /\
  isLookingAtScreen (step st a) = isLookingAtScreen st.
Proof.
  intros Hm Ha. unfold step.
  destruct a as [loaded | granted | frame | frame]; cbn.
  - destruct loaded; [discriminate | now cbn].
  - unfold startWebcam. repeat break_if; now cbn.
  - unfold captureFace. rewrite Hm, orb_true_r. now cbn.
  - unfold verifyFace. rewrite Hm, orb_true_r.
    destruct (initialFace st) eqn:Hi; cbn; now rewrite ?Hi.
Qed.

(** While the models are not loaded nothing is enrolled or judged: through
    any actions that do not include a successful load, the models stay
    unloaded and the enrolled face, the verdict and the two warning flags
    stay as they were. *)
Theorem nothing_happens_without_models (st : State) (actions : list Action) :
  modelsLoaded st = false ->
  existsb loadsModels actions = false ->
  modelsLoaded (steps st actions) = false /\
  initialFace (steps st actions) = initialFace st /\
  verificationResult (steps st actions) = verificationResult st /\
  multipleFacesDetected (steps st actions) = multipleFacesDetected st /\
  isLookingAtScreen (steps st actions) = isLookingAtScreen st.
Proof.
  revert st. induction actions as [| a actions IH]; intros st Hm Ha;
    [now repeat split |].
  cbn in Ha. apply orb_false_iff in Ha as [Ha Hrest].
  change (steps st (a :: actions)) with (steps (step st a) actions).
  destruct (step_without_models st a Hm Ha) as (Hm' & Hi & Hr & Hf & Hl).
  destruct (IH (step st a) Hm' Hrest) as (-> & -> & -> & -> & ->).
  now repeat split.
Qed.

Lemma nothing_happens_without_models_witness :
  let actions :=
    [LoadModels false; StartWebcam true;
     CaptureFace (Resolved [face frontalLandmarks faceprint06]);
     VerifyFace (Resolved [face frontalLandmarks faceprint06])] in
  modelsLoaded (steps (initialState true CanvasReady) actions) = false /\
  initialFace (steps (initialState true CanvasReady) actions) = None /\
  verificationResult (steps (initialState true CanvasReady) actions) = None /\
  multipleFacesDetected (steps (initialState true CanvasReady) actions) = false /\
  isLookingAtScreen (steps (initialState true CanvasReady) actions) = true.
Proof.
  apply (nothing_happens_without_models (initialState true CanvasReady)
           [LoadModels false; StartWebcam true;
            CaptureFace (Resolved [face frontalLandmarks faceprint06]);
            VerifyFace (Resolved [face frontalLandmarks faceprint06])]);
    reflexivity.
Defined.

(** ** When the detector or the canvas fails *)

(** When the detector rejects, a capture past its guard only sets the
    status to the capture failure text and a verification with a face
    enrolled only sets it to the verification error text: no face is
    enrolled, no verdict stored, and a former verdict stays in place. *)
Theorem rejection_only_sets_status (st : State) :
  videoRef st = true -> modelsLoaded st = true ->
  step st (CaptureFace Rejected) =
    {| videoRef := videoRef st; canvasRef := canvasRef st;
       modelsLoaded := modelsLoaded st; initialFace := initialFace st;
       verificationResult := verificationResult st;
       statusMessage := "Failed at detecting face.";
       multipleFacesDetected := multipleFacesDetected st;
       isLookingAtScreen := isLookingAtScreen st |} /\
  (isEnrolled st = true ->
   step st (VerifyFace Rejected) =
     {| videoRef := videoRef st; canvasRef := canvasRef st;
        modelsLoaded := modelsLoaded st; initialFace := initialFace st;
        verificationResult := verificationResult st;
        statusMessage := "Error at verifying the face.";
        multipleFacesDetected := multipleFacesDetected st;
        isLookingAtScreen := isLookingAtScreen st |}).
Proof.
  intros Hv Hm. unfold step, perform, captureFace, verifyFace, isEnrolled.
  rewrite Hv, Hm. cbn. rewrite ?Hv, ?Hm. split; [reflexivity |].
  destruct (initialFace st) eqn:Hi; [| discriminate].
  intros _. cbn. now rewrite Hv, Hm, Hi.
Qed.

Lemma rejection_only_sets_status_witness :
  statusMessage (step (enrolledWith origin) (VerifyFace Rejected)) =
    "Error at verifying the face."%string /\
  verificationResult (step (enrolledWith origin) (VerifyFace Rejected)) = None.
Proof.
  pose proof (rejection_only_sets_status (enrolledWith origin) eq_refl eq_refl)
    as [_ H].
  rewrite (H eq_refl). split; reflexivity.
Defined.

(** On a canvas that gives no 2d context the overlay is given up, but only
    after the state was set: a frontal capture still enrolls the face and
    a verification still stores its verdict, while the status reads
    "Canvas not initialized" instead of the outcome. *)
Theorem canvas_without_context (st : State) (d : FaceApi.Detection) :
  videoRef st = true -> modelsLoaded st = true ->
  canvasRef st = CanvasNoContext ->
  checkIfLookingAtScreen (FaceApi.landmarks d) = Some true ->
  (initialFace (step st (CaptureFace (Resolved [d]))) =
     Some {| descriptor := FaceApi.descriptor d; detection := d |} /\
   statusMessage (step st (CaptureFace (Resolved [d]))) = "Canvas not initialized"%string) /\
  (forall enrolled, initialFace st = Some enrolled ->
   exists dist,
     FaceApi.euclideanDistance (FaceApi.values (descriptor enrolled))
       (FaceApi.values (FaceApi.descriptor d)) = Some dist /\
     verificationResult (step st (VerifyFace (Resolved [d]))) =
       Some (comparisonVerdict dist) /\
     statusMessage (step st (VerifyFace (Resolved [d]))) = "Canvas not initialized"%string).
Proof.
  intros Hv Hm Hc Hl. split.
  - unfold step, perform, captureFace, drawOverlay.
    rewrite Hv, Hm, Hc. cbn. rewrite Hl. now cbn.
  - intros enrolled Hi.
    destruct (euclideanDistance_defined (descriptor enrolled) (FaceApi.descriptor d))
      as [dist Hd].
    exists dist. split; [exact Hd |].
    unfold step, perform.
    rewrite (verifyFace_compares st enrolled d dist Hi Hv Hm Hl Hd).
    unfold drawOverlay. rewrite Hc. now cbn.
Qed.

Lemma canvas_without_context_witness :
  initialFace
    (step (step (initialState true CanvasNoContext) (LoadModels true))
       (CaptureFace (Resolved [face frontalLandmarks faceprint06]))) =
    Some {| descriptor := faceprint06;
            detection := face frontalLandmarks faceprint06 |} /\
  statusMessage
    (step (step (initialState true CanvasNoContext) (LoadModels true))
       (CaptureFace (Resolved [face frontalLandmarks faceprint06]))) =
    "Canvas not initialized"%string.
Proof.
  apply (canvas_without_context
           (step (initialState true CanvasNoContext) (LoadModels true))
           (face frontalLandmarks faceprint06)).
  - reflexivity.
  - reflexivity.
  - reflexivity.
  - vm_compute. reflexivity.
Defined.

(** ** The gaze warning *)

(** The gaze flag follows the last frame with exactly one detection: a
    capture past its guard, or a verification with a face enrolled, sets
    it to the answer of the gaze check on that detection, so that the
    warning goes away with the next frontal frame; a frame that is empty
    or has several detections leaves it as it was. *)
Theorem gaze_flag_follows_single_face (st : State)
        (detections : list FaceApi.Detection) (a : Action) :
  videoRef st = true -> modelsLoaded st = true ->
  a = CaptureFace (Resolved detections) \/
  (a = VerifyFace (Resolved detections) /\ isEnrolled st = true) ->
  match detections with
  | [d] =>
      checkIfLookingAtScreen (FaceApi.landmarks d) =
        Some (isLookingAtScreen (step st a))
  | _ => isLookingAtScreen (step st a) = isLookingAtScreen st
  end.
Proof.
  intros Hv Hm Ha. unfold step, perform.
  destruct Ha as [-> | [-> He]].
  - unfold captureFace, drawOverlay. rewrite Hv, Hm.
    split_frame detections; cbn.
    + reflexivity.
    + destruct (looking_defined (FaceApi.landmarks d)) as [b ->].
      destruct b; cbn; now destruct (canvasRef st).
    + now destruct (canvasRef st).
  - unfold verifyFace, drawOverlay, isEnrolled in *.
    destruct (initialFace st) as [enrolled |]; [| discriminate].
    rewrite Hv, Hm.
    split_frame detections; cbn.
    + reflexivity.
    + destruct (looking_defined (FaceApi.landmarks d)) as [b ->].
      destruct b; cbn.
      * destruct (euclideanDistance_defined (descriptor enrolled)
                    (FaceApi.descriptor d)) as [dist ->].
        now destruct (canvasRef st).
      * now destruct (canvasRef st).
    + now destruct (canvasRef st).
Qed.

Lemma gaze_flag_follows_single_face_witness :
  checkIfLookingAtScreen (FaceApi.landmarks (face turnedLandmarks origin)) =
    Some (isLookingAtScreen
            (step readyState (CaptureFace (Resolved [face turnedLandmarks origin])))).
Proof.
  apply (gaze_flag_follows_single_face readyState
           [face turnedLandmarks origin]
           (CaptureFace (Resolved [face turnedLandmarks origin]))).
  - reflexivity.
  - reflexivity.
  - left. reflexivity.
Defined.

(** ** Invariants of reachable sessions *)

(** Every reachable state of the session is sound: a face is enrolled
    only with the video mounted and the models loaded, and a verdict is
    stored only with a face enrolled. *)
Theorem session_invariant (st : State) :
  reachable st ->
  (isEnrolled st = true -> videoRef st = true /\ modelsLoaded st = true) /\
  (verificationResult st <> None -> isEnrolled st = true).
Proof.
  intros Hr. destruct (reachable_sound st Hr) as [He Hv].
  unfold isEnrolled. split.
  - intros H. apply He. now destruct (initialFace st).
  - intros H. specialize (Hv H). now destruct (initialFace st).
Qed.

Lemma session_invariant_witness :
  (isEnrolled (enrolledWith faceprint06) = true ->
   videoRef (enrolledWith faceprint06) = true /\
   modelsLoaded (enrolledWith faceprint06) = true) /\
  (verificationResult (enrolledWith faceprint06) <> None ->
   isEnrolled (enrolledWith faceprint06) = true).
Proof.
  apply (session_invariant (enrolledWith faceprint06)).
  apply reachable_enrolledWith.
Defined.

(** A property of the stored verdict that holds before the setter calls
    and of every verdict they store holds after them. *)
Lemma run_wellformed (effects : list Effect) (st : State)
      (P : VerificationResult -> Prop) :
  (forall r, verificationResult st = Some r -> P r) ->
  (forall r, In r (verdicts effects) -> P r) ->
  forall r, verificationResult (run st effects) = Some r -> P r.
Proof.
  revert st. induction effects as [| e effects IH]; intros st Hst He; [exact Hst |].
  cbn. unfold run in IH. apply IH.
  - destruct e; cbn; try exact Hst.
    intros r' [= <-]. apply He. cbn. now left.
  - intros r' Hin. apply He. destruct e; cbn; auto.
Qed.

Lemma verdicts_perform (st : State) (a : Action) (r : VerificationResult) :
  In r (verdicts (perform st a)) ->
  (exists c, r = failedVerdict c) \/ (exists d, r = comparisonVerdict d).
Proof.
  destruct a as [loaded | granted | frame | frame]; cbn.
  - now destruct loaded.
  - unfold startWebcam. repeat break_if; cbn; tauto.
  - now rewrite verdicts_captureFace.
  - intros H. destruct (verdicts_verifyFace st frame r H)
      as (_ & _ & _ & _ & [(c & _ & ->) | (_ & d & _ & _ & _ & ->)]); eauto.
Qed.

(** The verdict stored in a reachable state is consistent in its fields:
    with a distance, [isMatch] is [distance < 0.6], the confidence is the
    rounded percentage of that distance and the message is the one of the
    outcome with this confidence; without a distance it is no match, has
    no confidence and carries the message of a capture condition. *)
Theorem stored_verdict_consistent (st : State) (r : VerificationResult) :
  reachable st -> verificationResult st = Some r ->
  match distance r with
  | Some d =>
      isMatch r = (d <? 0.6)%float /\
      confidence r = Some (Math_round ((1 - d) * 100)%float) /\
      message r =
        (if isMatch r
         then [Text "Match confirmed! ("; Num (Math_round ((1 - d) * 100)%float);
               Text "% confidence)"]
         else [Text "Different person detected. (";
               Num (Math_round ((1 - d) * 100)%float); Text "% similarity)"])
  | None =>
      isMatch r = false /\ confidence r = None /\
      exists c, message r = [Text (verifyText c)]
  end.
Proof.
  intros Hr. revert r.
  assert (H : forall r, verificationResult st = Some r ->
                        (exists c, r = failedVerdict c) \/
                        (exists d, r = comparisonVerdict d)).
  { induction Hr as [video canvas | st a _ IH]; [discriminate |].
    unfold step. apply run_wellformed; [exact IH |].
    apply verdicts_perform. }
  intros r Hs. destruct (H r Hs) as [[c ->] | [d ->]]; cbn.
  - repeat split. now exists c.
  - now repeat split.
Qed.

Lemma stored_verdict_consistent_witness :
  match distance (comparisonVerdict 0.6) with
  | Some d =>
      isMatch (comparisonVerdict 0.6) = (d <? 0.6)%float /\
      confidence (comparisonVerdict 0.6) = Some (Math_round ((1 - d) * 100)%float) /\
      message (comparisonVerdict 0.6) =
        (if isMatch (comparisonVerdict 0.6)
         then [Text "Match confirmed! ("; Num (Math_round ((1 - d) * 100)%float);
               Text "% confidence)"]
         else [Text "Different person detected. (";
               Num (Math_round ((1 - d) * 100)%float); Text "% similarity)"])
  | None =>
      isMatch (comparisonVerdict 0.6) = false /\
      confidence (comparisonVerdict 0.6) = None /\
      exists c, message (comparisonVerdict 0.6) = [Text (verifyText c)]
  end.
Proof.
  apply (stored_verdict_consistent
           (step (enrolledWith faceprint06)
              (VerifyFace (Resolved [face frontalLandmarks origin])))
           (comparisonVerdict 0.6)).
  - constructor. apply reachable_enrolledWith.
  - vm_compute. reflexivity.
Defined.

(** ** Buttons and panel *)

(** In a reachable state the verify button is enabled exactly when a face
    is enrolled, it is enabled whenever a result panel is shown, and a
    click on the enabled button gets past the handler's guard: the first
    status it sets is "Verifying face", never the request to capture a
    face first. *)
Theorem enabled_verify_passes_guard (st : State) :
  reachable st ->
  verifyDisabled (render st) = negb (isEnrolled st) /\
  (resultPanel (render st) <> None -> verifyDisabled (render st) = false) /\
  (verifyDisabled (render st) = false ->
   forall frame, exists rest,
     verifyFace st frame = SetStatusMessage "Verifying face" :: rest).
Proof.
  intros Hr. destruct (reachable_sound st Hr) as [He Hv].
  unfold render, isEnrolled. cbn. split; [reflexivity |]. split.
  - intros H. destruct (verificationResult st) as [r |]; [| congruence].
    destruct (initialFace st); [reflexivity |].
    exfalso. apply Hv; congruence.
  - intros H frame. unfold verifyFace.
    destruct (initialFace st) as [enrolled |]; [| discriminate].
    destruct He as [-> ->]; [discriminate |]. cbn. eauto.
Qed.

Lemma enabled_verify_passes_guard_witness :
  verifyDisabled (render (enrolledWith origin)) =
    negb (isEnrolled (enrolledWith origin)) /\
  (resultPanel (render (enrolledWith origin)) <> None ->
   verifyDisabled (render (enrolledWith origin)) = false) /\
  (verifyDisabled (render (enrolledWith origin)) = false ->
   forall frame, exists rest,
     verifyFace (enrolledWith origin) frame =
       SetStatusMessage "Verifying face" :: rest).
Proof.
  apply (enabled_verify_passes_guard (enrolledWith origin)).
  apply reachable_enrolledWith.
Defined.

(** After a frontal probe whose descriptor has the entries of the enrolled
    one, all of them finite, is verified, the panel is styled as a match
    and says so with 100% confidence, but shows no score paragraph: the
    distance 0 is falsy, and the bare number is rendered in its place. *)
Theorem same_face_shows_no_score (st : State) (enrolled : FaceData)
        (probe : FaceApi.Detection) :
  reachable st -> initialFace st = Some enrolled ->
  checkIfLookingAtScreen (FaceApi.landmarks probe) = Some true ->
  FaceApi.values (descriptor enrolled) = FaceApi.values (FaceApi.descriptor probe) ->
  forallb isFinite (FaceApi.values (descriptor enrolled)) = true ->
  resultPanel (render (step st (VerifyFace (Resolved [probe])))) =
    Some {| matchStyle := true;
            panelMessage := [Text "Match confirmed! ("; Num 100%float;
                             Text "% confidence)"];
            distanceLine := BareNumber 0%float |}.
Proof.
  intros Hr Hi Hl Hsame Hfinite.
  destruct (enrolled_ready st enrolled Hr Hi) as [Hv Hm].
  destruct (verifyFace_stores st enrolled probe Hi Hv Hm Hl) as (d & Hd & Hs).
  rewrite <- Hsame in Hd.
  rewrite (euclideanDistance_same _ Hfinite) in Hd.
  injection Hd as <-.
  unfold render. cbn [resultPanel]. rewrite Hs. reflexivity.
Qed.

Lemma same_face_shows_no_score_witness :
  resultPanel
    (render
       (step (enrolledWith faceprint13)
          (VerifyFace (Resolved [face frontalLandmarks faceprint13])))) =
    Some {| matchStyle := true;
            panelMessage := [Text "Match confirmed! ("; Num 100%float;
                             Text "% confidence)"];
            distanceLine := BareNumber 0%float |}.
Proof.
  apply (same_face_shows_no_score (enrolledWith faceprint13)
           {| descriptor := faceprint13;
              detection := face frontalLandmarks faceprint13 |}
           (face frontalLandmarks faceprint13)).
  - apply reachable_enrolledWith.
  - reflexivity.
  - vm_compute. reflexivity.
  - reflexivity.
  - vm_compute. reflexivity.
Defined.

(** ** More on the gaze heuristic *)

Module Binary64Symmetry.

Open Scope Z_scope.

Lemma add_comm (v w : number) : (v + w)%float = (w + v)%float.
Proof.
  apply Prim2SF_inj. rewrite !add_spec.
  destruct (Prim2SF v) as [s | s | | s m e], (Prim2SF w) as [s' | s' | | s' m' e'];
    try reflexivity; try (now destruct s, s').
  unfold SF64add, SFadd.
  now rewrite (Z.min_comm e' e), Z.add_comm.
Qed.

Lemma abs_binary_round_aux (s : bool) (m e : Z) (l : location) :
  SFabs (binary_round_aux prec emax s m e l) =
  SFabs (binary_round_aux prec emax false m e l).
Proof.
  unfold binary_round_aux.
  destruct (shr_fexp prec emax m e l) as [mrs1 e1].
  destruct (shr_fexp prec emax _ e1 loc_Exact) as [mrs2 e2].
  destruct (shr_m mrs2); try reflexivity.
  now destruct (e2 <=? emax - prec).
Qed.

Lemma abs_binary_normalize_opp (z e : Z) :
  SFabs (binary_normalize prec emax (- z) e false) =
  SFabs (binary_normalize prec emax z e false).
Proof.
  destruct z as [| p | p]; cbn [Z.opp binary_normalize]; [reflexivity | |];
    unfold binary_round;
    destruct (shl_align p e (fexp prec emax (Z.pos (digits2_pos p) + e))) as [mz ez].
  - apply abs_binary_round_aux.
  - symmetry. apply abs_binary_round_aux.
Qed.

(** |v - w| = |w - v| for all numbers, NaN and the infinities included. *)
Lemma abs_sub_swap (v w : number) : abs (v - w) = abs (w - v).
Proof.
  apply Prim2SF_inj. rewrite !abs_spec, !sub_spec.
  destruct (Prim2SF v) as [s | s | | s m e], (Prim2SF w) as [s' | s' | | s' m' e'];
    try reflexivity; try (now destruct s, s').
  unfold SF64sub, SFsub.
  rewrite (Z.min_comm e' e).
  set (a := cond_Zopp s (Z.pos (fst (shl_align m e (Z.min e e'))))).
  set (b := cond_Zopp s' (Z.pos (fst (shl_align m' e' (Z.min e e'))))).
  replace (b - a) with (- (a - b)) by lia.
  symmetry. apply abs_binary_normalize_opp.
Qed.

(** A number below [|z| * c] forces [|z|] to be positive. *)
Lemma ltb_abs_mul_positive (u z : number) :
  (abs u <? abs z * 0.3)%float = true -> (0 <? abs z)%float = true.
Proof.
  rewrite !ltb_spec, mul_spec, !abs_spec.
  destruct (Prim2SF z) as [s | s | | s m e]; cbn [SFabs]; try reflexivity.
  - change (SF64mul (S754_zero false) (Prim2SF 0.3)) with (S754_zero false).
    destruct (Prim2SF u) as [s' | s' | | s' m' e']; discriminate.
  - change (SF64mul S754_nan (Prim2SF 0.3)) with S754_nan.
    destruct (Prim2SF u) as [s' | s' | | s' m' e']; discriminate.
Qed.

End Binary64Symmetry.

(** The heuristic accepts a landmark set only if its eye centres are
    apart: an answer of [true] implies a positive eyeXDifference, so that
    a zero or NaN eye distance is always refused. *)
Theorem looking_requires_eyes_apart (lms : FaceApi.FaceLandmarks68) :
  checkIfLookingAtScreen lms = Some true ->
  (0 <? eyeXDifference lms)%float = true.
Proof.
  unfold checkIfLookingAtScreen.
  destruct (noseOffset lms) as [offset |]; [| discriminate].
  intros [= H]. apply andb_true_iff in H as [Hlevel _].
  unfold eyeYDifference, eyeXDifference, Math_abs in *.
  now apply Binary64Symmetry.ltb_abs_mul_positive in Hlevel.
Qed.

Lemma looking_requires_eyes_apart_witness :
  (0 <? eyeXDifference frontalLandmarks)%float = true.
Proof.
  apply (looking_requires_eyes_apart frontalLandmarks).
  vm_compute. reflexivity.
Defined.

(** The heuristic does not tell the eyes apart: exchanging the left-eye
    and the right-eye group leaves its answer unchanged. *)
Theorem looking_ignores_eye_order (lms : FaceApi.FaceLandmarks68) :
  checkIfLookingAtScreen (swapEyes lms) = checkIfLookingAtScreen lms.
Proof.
  unfold checkIfLookingAtScreen, noseOffset, nosePoint, noseXCenter,
    eyeYDifference, eyeXDifference, eyeLine, leftEyeCenter, rightEyeCenter,
    Math_abs.
  cbn [swapEyes FaceApi.getNose FaceApi.getLeftEye FaceApi.getRightEye
       FaceApi.x FaceApi.y].
  set (l := FaceApi.getCenterPoint (FaceApi.getLeftEye lms)).
  set (r := FaceApi.getCenterPoint (FaceApi.getRightEye lms)).
  rewrite (Binary64Symmetry.add_comm (FaceApi.x r) (FaceApi.x l)).
  rewrite (Binary64Symmetry.abs_sub_swap (FaceApi.y l) (FaceApi.y r)).
  rewrite (Binary64Symmetry.abs_sub_swap (FaceApi.x l) (FaceApi.x r)).
  reflexivity.
Qed.

(** Once the models are loaded they stay loaded, and the capture button
    stays enabled, through any later actions: a later load that fails
    reports its failure in the status but does not unload them. *)
Theorem models_stay_loaded (st : State) (actions : list Action) :
  modelsLoaded st = true ->
  modelsLoaded (steps st actions) = true /\
  captureDisabled (render (steps st actions)) = false /\
  statusMessage (step (steps st actions) (LoadModels false)) =
    "Failed to load models. Check console for details."%string /\
  modelsLoaded (step (steps st actions) (LoadModels false)) = true.
Proof.
  intros Hm.
  assert (H : modelsLoaded (steps st actions) = true).
  { revert st Hm. induction actions as [| a actions IH]; intros st Hm; [exact Hm |].
    change (steps st (a :: actions)) with (steps (step st a) actions).
    apply IH. now apply step_modelsLoaded. }
  split; [exact H |]. split; [cbn; now rewrite H |].
  split; [reflexivity |]. cbn. exact H.
Qed.

Lemma models_stay_loaded_witness :
  modelsLoaded (steps readyState [LoadModels false; CaptureFace Rejected]) = true /\
  captureDisabled
    (render (steps readyState [LoadModels false; CaptureFace Rejected])) = false /\
  statusMessage
    (step (steps readyState [LoadModels false; CaptureFace Rejected])
       (LoadModels false)) =
    "Failed to load models. Check console for details."%string /\
  modelsLoaded
    (step (steps readyState [LoadModels false; CaptureFace Rejected])
       (LoadModels false)) = true.
Proof.
  apply (models_stay_loaded readyState [LoadModels false; CaptureFace Rejected]).
  reflexivity.
Defined.

(** ** The range of the confidence

    [verifyFace] computes the confidence as
    [Math.round((1 - distance) * 100)] and compares the distance with 0.6;
    the distance is the square root [euclideanDistance] returns. *)

Module Binary64Bounds.

Open Scope Z_scope.

(** Shifting out zero bits leaves no round or sticky bit behind. *)
Lemma shr_1_exact (mrs : shr_record) :
  0 <= shr_m mrs -> shr_r mrs = false -> shr_s mrs = false ->
  Z.even (shr_m mrs) = true ->
  shr_r (shr_1 mrs) = false /\ shr_s (shr_1 mrs) = false.
Proof.
  destruct mrs as [m r s]. cbn. intros Hm -> -> He.
  destruct m as [| [p | p |] | p]; cbn in *; try discriminate; try lia; auto.
Qed.

Lemma iter_shr_1_exact (n : positive) (mrs : shr_record) :
  0 <= shr_m mrs -> shr_r mrs = false -> shr_s mrs = false ->
  (2 ^ Zpos n | shr_m mrs) ->
  shr_r (SpecFloat.iter_pos shr_1 n mrs) = false /\
  shr_s (SpecFloat.iter_pos shr_1 n mrs) = false.
Proof.
  revert mrs.
  induction n as [n IH | n IH |]; intros mrs Hm Hr Hs Hd; cbn [SpecFloat.iter_pos].
  - destruct Hd as [q Hq].
    assert (Hpow : 2 ^ Z.pos n~1 = 2 * (2 ^ Zpos n * 2 ^ Zpos n)).
    { replace (Z.pos n~1) with (1 + (Zpos n + Zpos n)) by lia.
      rewrite !Z.pow_add_r, Z.pow_1_r by lia. lia. }
    rewrite Hpow in Hq.
    assert (He : Z.even (shr_m mrs) = true).
    { rewrite Hq. replace (q * (2 * (2 ^ Z.pos n * 2 ^ Z.pos n)))
        with (2 * (q * (2 ^ Z.pos n * 2 ^ Z.pos n))) by lia.
      apply Z.even_even. }
    destruct (shr_1_exact mrs Hm Hr Hs He) as [Hr1 Hs1].
    assert (Hm1 : shr_m (shr_1 mrs) = q * 2 ^ Zpos n * 2 ^ Zpos n).
    { rewrite Binary64.shr_1_m, Z.div2_div, Hq by assumption.
      replace (q * (2 * (2 ^ Z.pos n * 2 ^ Z.pos n)))
        with ((q * 2 ^ Z.pos n * 2 ^ Z.pos n) * 2) by lia.
      apply Z.div_mul. lia. }
    assert (Hq0 : 0 <= q * 2 ^ Zpos n * 2 ^ Zpos n).
    { rewrite <- Hm1, Binary64.shr_1_m by assumption. now apply Z.div2_nonneg. }
    assert (H2 : 0 <= shr_m (SpecFloat.iter_pos shr_1 n (shr_1 mrs))).
    { rewrite Binary64.iter_shr_1_m by lia. apply Z.shiftr_nonneg. lia. }
    destruct (IH (shr_1 mrs)) as [Hr2 Hs2]; try assumption; try lia.
    { rewrite Hm1. exists (q * 2 ^ Zpos n). lia. }
    apply IH; try assumption.
    rewrite Binary64.iter_shr_1_m, Hm1, Z.shiftr_div_pow2, Z.div_mul by lia.
    exists q. lia.
  - destruct Hd as [q Hq].
    assert (Hpow : 2 ^ Z.pos n~0 = 2 ^ Zpos n * 2 ^ Zpos n).
    { replace (Z.pos n~0) with (Zpos n + Zpos n) by lia.
      rewrite Z.pow_add_r by lia. lia. }
    rewrite Hpow in Hq.
    assert (H2 : 0 <= shr_m (SpecFloat.iter_pos shr_1 n mrs)).
    { rewrite Binary64.iter_shr_1_m by lia. apply Z.shiftr_nonneg. lia. }
    destruct (IH mrs) as [Hr2 Hs2]; try assumption.
    { rewrite Hq. exists (q * 2 ^ Zpos n). lia. }
    apply IH; try assumption.
    rewrite Binary64.iter_shr_1_m, Hq, Z.shiftr_div_pow2 by lia.
    replace (q * (2 ^ Z.pos n * 2 ^ Z.pos n)) with (q * 2 ^ Z.pos n * 2 ^ Z.pos n) by lia.
    rewrite Z.div_mul by lia.
    exists q. lia.
  - apply shr_1_exact; try assumption.
    destruct Hd as [q ->]. rewrite Z.pow_1_r, Z.mul_comm. apply Z.even_even.
Qed.

Lemma shr_record_exact_m (m : Z) : shr_m (shr_record_of_loc m loc_Exact) = m.
Proof. reflexivity. Qed.

Lemma round_nearest_even_bounds (mrs : shr_record) :
  shr_m mrs <= round_nearest_even (shr_m mrs) (loc_of_shr_record mrs) <= shr_m mrs + 1 /\
  (shr_r mrs = false -> shr_s mrs = false ->
   round_nearest_even (shr_m mrs) (loc_of_shr_record mrs) = shr_m mrs).
Proof.
  destruct mrs as [m [|] [|]]; cbn; repeat split; try lia; try discriminate;
    destruct (Z.even m); lia.
Qed.

Lemma binary_round_aux_le (m : positive) (e : Z) (M : positive) (E : Z) :
  Zpos (digits2_pos M) <= 53 -> emin <= E -> E <= emax - prec ->
  e <= fexp prec emax (Zpos (digits2_pos m) + e) ->
  e <= E -> Zpos m <= Zpos M * 2 ^ (E - e) ->
  atMost M E (binary_round_aux prec emax false (Zpos m) e loc_Exact).
Proof.
  intros HM HEmin HEmax Hf HeE Hle.
  pose proof (Binary64.digits2_pos_bounds m) as [Hmlo Hmhi].
  pose proof (Binary64.digits2_pos_bounds M) as [_ HMhi].
  set (d := Zpos (digits2_pos m)) in *.
  assert (HM53 : Zpos M < 2 ^ 53).
  { apply Z.lt_le_trans with (2 ^ Zpos (digits2_pos M)); [exact HMhi |].
    apply Z.pow_le_mono_r; lia. }
  unfold binary_round_aux, shr_fexp at 1. cbn [Zdigits2]. fold d.
  set (f := fexp prec emax (d + e)) in *.
  assert (Hfmin : emin <= f) by (unfold f; binary64; lia).
  (* the target exponent is at most the bound's *)
  assert (HfE : f <= E).
  { assert (H : 2 ^ (d - 1) < 2 ^ (53 + (E - e))).
    { apply Z.le_lt_trans with (Zpos m); [exact Hmlo |].
      apply Z.le_lt_trans with (Zpos M * 2 ^ (E - e)); [exact Hle |].
      rewrite Z.pow_add_r by lia.
      apply Z.mul_lt_mono_pos_r; [apply Z.pow_pos_nonneg; lia | exact HM53]. }
    apply Z.pow_lt_mono_r_iff in H; [| lia | lia].
    unfold f. binary64. lia. }
  unfold shr.
  destruct (f - e) as [| n | n] eqn:En; [| | lia].
  - (* no shift: the number is on its grid *)
    cbn [shr_m shr_record_of_loc loc_of_shr_record round_nearest_even].
    unfold shr_fexp. cbn [Zdigits2]. fold d. fold f. rewrite En.
    cbn [shr shr_m shr_record_of_loc].
    assert (H971 : (e <=? emax - prec) = true) by (apply Z.leb_le; lia).
    rewrite H971. cbn. split; assumption.
  - set (mrs1 := SpecFloat.iter_pos shr_1 n (shr_record_of_loc (Zpos m) loc_Exact)).
    assert (Hm1 : shr_m mrs1 = Zpos m / 2 ^ Zpos n).
    { unfold mrs1. rewrite Binary64.iter_shr_1_m by (cbn; lia).
      cbn [shr_m shr_record_of_loc]. apply Z.shiftr_div_pow2. lia. }
    assert (Hexact : (2 ^ Zpos n | Zpos m) ->
                     shr_r mrs1 = false /\ shr_s mrs1 = false).
    { intros Hd. apply iter_shr_1_exact; cbn; auto; lia. }
    pose proof (round_nearest_even_bounds mrs1) as [[Hlo Hhi] Hsame].
    set (m2 := round_nearest_even (shr_m mrs1) (loc_of_shr_record mrs1)) in *.
    rewrite Hm1 in Hlo, Hhi, Hsame.
    set (Q := Zpos M * 2 ^ (E - f)).
    assert (Hpown : 0 < 2 ^ Zpos n) by (apply Z.pow_pos_nonneg; lia).
    assert (HQ : Zpos M * 2 ^ (E - e) = Q * 2 ^ Zpos n).
    { unfold Q. replace (E - e) with ((E - f) + Zpos n) by lia.
      rewrite Z.pow_add_r by lia. lia. }
    assert (Hm1Q : Zpos m / 2 ^ Zpos n <= Q).
    { apply Z.div_le_upper_bound; [exact Hpown |]. lia. }
    assert (Hm1nn : 0 <= Zpos m / 2 ^ Zpos n) by (apply Z.div_pos; lia).
    assert (Hm2Q : m2 <= Q).
    { destruct (Z.eq_dec m2 (Zpos m / 2 ^ Zpos n)) as [-> | Hne]; [exact Hm1Q |].
      assert (Hm2 : m2 = Zpos m / 2 ^ Zpos n + 1) by lia.
      destruct (Z.eq_dec (Zpos m / 2 ^ Zpos n) Q) as [HeqQ | HneQ]; [| lia].
      exfalso. apply Hne.
      assert (Hdiv : (2 ^ Zpos n | Zpos m)).
      { exists Q.
        pose proof (Z.mul_div_le (Zpos m) (2 ^ Zpos n) Hpown) as Hfl.
        rewrite HeqQ in Hfl. lia. }
      destruct (Hexact Hdiv) as [Hr Hs]. now apply Hsame. }
    assert (Hm2hi : m2 <= 2 ^ 53).
    { assert (Zpos m / 2 ^ Zpos n < 2 ^ 53); [| lia].
      apply Z.div_lt_upper_bound; [exact Hpown |].
      (* m < 2^d <= 2^(53+n) *)
      apply Z.lt_le_trans with (2 ^ d); [exact Hmhi |].
      rewrite <- Z.pow_add_r by lia.
      apply Z.pow_le_mono_r; [lia |]. unfold f in En. binary64. lia. }
    replace (e + Zpos n) with f by lia.
    unfold shr_fexp.
    destruct m2 as [| p2 | p2] eqn:Em2; [| | lia].
    + (* rounded to zero *)
      cbn [Zdigits2].
      replace (fexp prec emax (0 + f) - f) with
        (match fexp prec emax (0 + f) - f with Zpos _ => 0 | z => z end).
      2:{ destruct (fexp prec emax (0 + f) - f) eqn:E0; try reflexivity.
          binary64. lia. }
      destruct (fexp prec emax (0 + f) - f); cbn; exact I.
    + cbn [Zdigits2].
      destruct (Z.eq_dec (Zpos p2) (2 ^ 53)) as [H53 | H53].
      * (* the carry case *)
        assert (Hp2 : p2 = 9007199254740992%positive) by (cbn in H53; lia).
        subst p2.
        assert (Hsh : fexp prec emax (Zpos (digits2_pos 9007199254740992) + f) - f = 1).
        { cbn [digits2_pos Pos.succ]. binary64. lia. }
        rewrite Hsh. cbn [shr SpecFloat.iter_pos shr_1 shr_record_of_loc shr_m].
        assert (HfE1 : f + 1 <= E).
        { destruct (Z.eq_dec f E) as [-> | ]; [| lia].
          exfalso. unfold Q in Hm2Q. rewrite Z.sub_diag in Hm2Q. cbn in Hm2Q, HM53. lia. }
        assert (H971 : (f + 1 <=? emax - prec) = true) by (apply Z.leb_le; lia).
        rewrite H971. cbn [atMost]. split; [exact HfE1 |].
        unfold Q in Hm2Q. replace (E - f) with (1 + (E - (f + 1))) in Hm2Q by lia.
        rewrite Z.pow_add_r, Z.pow_1_r in Hm2Q by lia. lia.
      * pose proof (Binary64.digits2_pos_bounds p2) as [Hp2lo _].
        set (d2 := Zpos (digits2_pos p2)) in *.
        assert (Hd2 : d2 <= 53).
        { assert (H : 2 ^ (d2 - 1) < 2 ^ 53) by lia.
          apply Z.pow_lt_mono_r_iff in H; lia. }
        replace (fexp prec emax (d2 + f) - f) with
          (match fexp prec emax (d2 + f) - f with Zpos _ => 0 | z => z end).
        2:{ destruct (fexp prec emax (d2 + f) - f) eqn:E0; try reflexivity.
            binary64. lia. }
        assert (H971 : (f <=? emax - prec) = true) by (apply Z.leb_le; lia).
        destruct (fexp prec emax (d2 + f) - f); cbn [shr shr_m shr_record_of_loc];
          rewrite H971; cbn [atMost]; split; assumption.
Qed.

(** The sign given to the rounding is the sign of its result. *)
Lemma binary_round_aux_sign (s : bool) (m e : Z) (l : location) :
  match binary_round_aux prec emax s m e l with
  | S754_zero s' | S754_infinity s' | S754_finite s' _ _ => s' = s
  | S754_nan => True
  end.
Proof.
  unfold binary_round_aux.
  destruct (shr_fexp prec emax m e l) as [mrs1 e1].
  destruct (shr_fexp prec emax _ e1 loc_Exact) as [mrs2 e2].
  destruct (shr_m mrs2); try reflexivity.
  now destruct (e2 <=? emax - prec).
Qed.

Lemma binary_round_sign (s : bool) (m : positive) (e : Z) :
  match binary_round prec emax s m e with
  | S754_zero s' | S754_infinity s' | S754_finite s' _ _ => s' = s
  | S754_nan => True
  end.
Proof.
  unfold binary_round.
  destruct (shl_align m e (fexp prec emax (Z.pos (digits2_pos m) + e))) as [mz ez].
  apply binary_round_aux_sign.
Qed.

Lemma iter_xO_value (k m : positive) :
  Zpos (Pos.iter xO m k) = Zpos m * 2 ^ Zpos k /\
  Zpos (digits2_pos (Pos.iter xO m k)) = Zpos (digits2_pos m) + Zpos k.
Proof.
  induction k as [| k IH] using Pos.peano_ind.
  - cbn [Pos.iter digits2_pos]. rewrite Z.pow_1_r. split; lia.
  - rewrite Pos.iter_succ. cbn [digits2_pos]. destruct IH as [IH1 IH2].
    rewrite Pos2Z.inj_xO, IH1, !Pos2Z.inj_succ, IH2, Z.pow_succ_r by lia.
    split; lia.
Qed.

(** Rounding a positive [p * 2^e] that is at most a number of the format. *)
Lemma binary_round_le (p : positive) (e : Z) (M : positive) (E : Z) :
  Zpos (digits2_pos M) <= 53 -> emin <= E -> E <= emax - prec ->
  e <= E -> Zpos p <= Zpos M * 2 ^ (E - e) ->
  atMost M E (binary_round prec emax false p e).
Proof.
  intros HM HEmin HEmax HeE Hle. unfold binary_round, shl_align.
  set (f := fexp prec emax (Zpos (digits2_pos p) + e)).
  destruct (f - e) as [| k | k] eqn:Ek.
  - apply binary_round_aux_le; try assumption. fold f. lia.
  - apply binary_round_aux_le; try assumption. fold f. lia.
  - destruct (iter_xO_value k p) as [Hv Hd].
    apply binary_round_aux_le; try assumption.
    + rewrite Hd. replace (Zpos (digits2_pos p) + Zpos k + f)
        with (Zpos (digits2_pos p) + e) by lia. fold f. lia.
    + lia.
    + rewrite Hv. replace (E - f) with ((E - e) + Zpos k) by lia.
      rewrite Z.pow_add_r by lia.
      assert (0 < 2 ^ Zpos k) by (apply Z.pow_pos_nonneg; lia). nia.
Qed.

(** The same for a bound written at a finer exponent than the input. *)
Lemma binary_round_le_fine (p : positive) (e : Z) (M : positive) (E : Z) :
  Zpos (digits2_pos M) <= 53 -> emin <= E -> E <= emax - prec ->
  E < e -> Zpos p * 2 ^ (e - E) <= Zpos M ->
  atMost M E (binary_round prec emax false p e).
Proof.
  intros HM HEmin HEmax HeE Hle. unfold binary_round, shl_align.
  pose proof (Binary64.digits2_pos_bounds p) as [Hplo _].
  pose proof (Binary64.digits2_pos_bounds M) as [_ HMhi].
  set (dp := Zpos (digits2_pos p)) in *.
  set (f := fexp prec emax (dp + e)).
  assert (HfE : f <= E).
  { assert (H : 2 ^ (dp - 1 + (e - E)) < 2 ^ 53).
    { rewrite Z.pow_add_r by lia.
      apply Z.le_lt_trans with (Zpos p * 2 ^ (e - E)).
      - apply Z.mul_le_mono_nonneg_r; [apply Z.pow_nonneg; lia | exact Hplo].
      - apply Z.le_lt_trans with (Zpos M); [exact Hle |].
        apply Z.lt_le_trans with (2 ^ Zpos (digits2_pos M)); [exact HMhi |].
        apply Z.pow_le_mono_r; lia. }
    apply Z.pow_lt_mono_r_iff in H; [| lia | lia].
    unfold f. binary64. lia. }
  destruct (f - e) as [| k | k] eqn:Ek; try lia.
  destruct (iter_xO_value k p) as [Hv Hd].
  apply binary_round_aux_le; try assumption.
  - rewrite Hd. fold dp. replace (dp + Zpos k + f) with (dp + e) by lia. fold f. lia.
  - rewrite Hv. replace (Zpos k) with ((e - E) + (E - f)) by lia.
    rewrite Z.pow_add_r by lia.
    assert (0 <= 2 ^ (E - f)) by (apply Z.pow_nonneg; lia). nia.
Qed.

Lemma atMost_of_sign_true (M : positive) (E : Z) (v : spec_float) :
  match v with
  | S754_zero s' | S754_infinity s' | S754_finite s' _ _ => s' = true
  | S754_nan => True
  end -> atMost M E v.
Proof. destruct v as [s | s | | s m e]; cbn; intros H; subst; exact I. Qed.

(** 1 - d is at most 1 when d is not negative. *)
Lemma one_minus_atMost (d : number) :
  notNegative (Prim2SF d) ->
  atMost 4503599627370496 (-52) (Prim2SF (1 - d)%float).
Proof.
  intros Hd. rewrite sub_spec.
  change (Prim2SF 1) with (S754_finite false 4503599627370496 (-52)).
  destruct (Prim2SF d) as [s | s | | s m e]; cbn [notNegative] in Hd.
  - cbn. lia.
  - destruct s; [contradiction | exact I].
  - exact I.
  - destruct s; [contradiction |].
    unfold SF64sub, SFsub, cond_Zopp.
    set (ez := Z.min (-52) e).
    set (a := Zpos (fst (shl_align 4503599627370496 (-52) ez))).
    set (b := Zpos (fst (shl_align m e ez))).
    assert (Ha : a = 2 ^ 52 * 2 ^ (-52 - ez)).
    { unfold a, shl_align.
      destruct (ez - -52) as [| k | k] eqn:Ek; cbn [fst]; try (unfold ez in Ek; lia).
      - replace (-52 - ez) with 0 by lia. reflexivity.
      - destruct (iter_xO_value k 4503599627370496) as [-> _].
        replace (-52 - ez) with (Zpos k) by lia. reflexivity. }
    assert (Hb : 0 < b) by (unfold b; lia).
    destruct (a - b) as [| p | p] eqn:Ez.
    + exact I.
    + apply binary_round_le; try (unfold ez; binary64; lia).
      * cbn [digits2_pos Pos.succ]. lia.
      * change (Zpos 4503599627370496) with (2 ^ 52). lia.
    + apply atMost_of_sign_true. apply binary_round_sign.
Qed.

Lemma sqrt_notNegative (v : number) : notNegative (Prim2SF (sqrt v)).
Proof.
  rewrite sqrt_spec. unfold SF64sqrt, SFsqrt.
  destruct (Prim2SF v) as [s | [|] | | [|] m e]; try exact I.
  destruct (SFsqrt_core_binary prec emax (Zpos m) e) as [[mz ez] lz].
  pose proof (binary_round_aux_sign false mz ez lz) as H.
  destruct (binary_round_aux prec emax false mz ez lz) as [s | s | | s m' e'];
    cbn; subst; exact I.
Qed.

(** [u * 100] is at most [M * 2^E] when [u] is at most [Mu * 2^Eu] and
    the product of the bounds is. *)
Lemma times_100_le (u : number) (Mu : positive) (Eu : Z) (M : positive) (E : Z) :
  atMost Mu Eu (Prim2SF u) ->
  Zpos (digits2_pos M) <= 53 -> emin <= E -> E <= emax - prec ->
  Eu - 46 <= E ->
  Zpos Mu * 7036874417766400 <= Zpos M * 2 ^ (E + 46 - Eu) ->
  atMost M E (Prim2SF (u * 100)%float).
Proof.
  intros Hu HM HEmin HEmax HE Hprod. rewrite mul_spec.
  change (Prim2SF 100) with (S754_finite false 7036874417766400 (-46)).
  destruct (Prim2SF u) as [s | s | | s m e]; cbn [atMost] in Hu.
  - exact I.
  - destruct s; [exact I | contradiction].
  - exact I.
  - unfold SF64mul, SFmul. destruct s; cbn [xorb].
    + apply atMost_of_sign_true, binary_round_aux_sign.
    + destruct Hu as [He Hm].
      pose proof (Binary64.digits2_pos_mul m 7036874417766400) as Hd.
      cbn [digits2_pos Pos.succ] in Hd.
      apply binary_round_aux_le; try assumption; try (binary64; lia).
      rewrite Pos2Z.inj_mul.
      replace (E - (e + -46)) with ((E + 46 - Eu) + (Eu - e)) by lia.
      rewrite Z.pow_add_r by lia.
      assert (0 <= 2 ^ (Eu - e)) by (apply Z.pow_nonneg; lia).
      assert (0 <= 2 ^ (E + 46 - Eu)) by (apply Z.pow_nonneg; lia).
      nia.
Qed.

(** A negative integer, as a number, is below every positive number. *)
Lemma of_integer_negative (q : positive) (mN : positive) (eN : Z) :
  SFltb (S754_finite false mN eN) (Prim2SF (of_integer (Zneg q))) = false.
Proof.
  unfold of_integer. cbn [binary_normalize].
  pose proof (binary_round_sign true q 0) as Hs.
  destruct (binary_round prec emax true q 0) as [s | s | | s m e];
    cbn [SF2Prim]; subst; try reflexivity.
  rewrite opp_spec, Z_ldexp_spec, of_uint63_spec.
  pose proof (Uint63.to_Z_bounded (Uint63.of_Z (Zpos m))) as [Hk _].
  destruct (Uint63.to_Z (Uint63.of_Z (Zpos m))) as [| k | k]; [reflexivity | | lia].
  cbn [binary_normalize].
  pose proof (binary_round_sign false k 0) as Hs.
  destruct (binary_round prec emax false k 0) as [s | s | | s m' e'];
    cbn [SFldexp]; subst; try reflexivity.
  pose proof (binary_round_sign false m' (e' + e)) as Hs.
  destruct (binary_round prec emax false m' (e' + e)) as [s | s | | s m'' e''];
    subst; reflexivity.
Qed.

(** [Math.round] of a number that is at most [M * 2^E], below [N + 1/2],
    is not above the number [fN], given that no integer from 0 to [N] is. *)
Lemma Math_round_le (p fN : number) (M : positive) (E : Z) (N : nat)
      (mN : positive) (eN : Z) :
  atMost M E (Prim2SF p) -> E < 0 ->
  2 * Zpos M + 2 ^ (- E) < 2 * (Z.of_nat N + 1) * 2 ^ (- E) ->
  Prim2SF fN = S754_finite false mN eN ->
  forallb (fun k => negb (fN <? of_integer (Z.of_nat k))%float) (seq 0 (S N)) = true ->
  (fN <? Math_round p)%float = false.
Proof.
  intros Hp HE HN HfN Hall. unfold Math_round.
  assert (Hsmall : forall n, 0 <= n <= Z.of_nat N ->
                             (fN <? of_integer n)%float = false).
  { intros n Hn. rewrite forallb_forall in Hall.
    specialize (Hall (Z.to_nat n)). rewrite Z2Nat.id in Hall by lia.
    apply negb_true_iff, Hall, in_seq. lia. }
  destruct (Prim2SF p) as [s | s | | s m e] eqn:Ep.
  - rewrite ltb_spec, HfN, Ep. reflexivity.
  - rewrite ltb_spec, HfN, Ep. destruct s; [reflexivity | contradiction].
  - rewrite ltb_spec, HfN, Ep. reflexivity.
  - assert (Hneg : s = true -> (fN <? p)%float = false).
    { intros ->. rewrite ltb_spec, HfN, Ep. reflexivity. }
    destruct (0 <=? e) eqn:He0.
    { destruct s; [now apply Hneg |]. apply Z.leb_le in He0. cbn in Hp. lia. }
    apply Z.leb_gt in He0.
    assert (Hpow : 0 < 2 ^ (- e)) by (apply Z.pow_pos_nonneg; lia).
    assert (Hpow1 : 2 ^ (1 - e) = 2 * 2 ^ (- e)).
    { replace (1 - e) with (1 + - e) by lia.
      now rewrite Z.pow_add_r, Z.pow_1_r by lia. }
    set (n := (2 * cond_Zopp s (Zpos m) + 2 ^ (- e)) / 2 ^ (1 - e)).
    destruct (n =? 0) eqn:En0.
    { destruct s; rewrite ltb_spec, HfN; reflexivity. }
    apply Z.eqb_neq in En0.
    destruct s; cbn [cond_Zopp] in n.
    + assert (Hn : n <= 0).
      { unfold n. rewrite Hpow1.
        assert ((2 * - Zpos m + 2 ^ (- e)) / (2 * 2 ^ (- e)) < 1); [| lia].
        apply Z.div_lt_upper_bound; lia. }
      destruct n as [| q | q]; try lia.
      rewrite ltb_spec, HfN. apply of_integer_negative.
    + cbn [atMost] in Hp. destruct Hp as [He Hm].
      apply Hsmall. split.
      * apply Z.div_pos; lia.
      * assert (n < Z.of_nat N + 1); [| lia].
        unfold n. rewrite Hpow1. apply Z.div_lt_upper_bound; [lia |].
        assert (H2 : 2 ^ (- E) * 2 ^ (E - e) = 2 ^ (- e)).
        { rewrite <- Z.pow_add_r by lia. f_equal. lia. }
        assert (0 < 2 ^ (E - e)) by (apply Z.pow_pos_nonneg; lia).
        nia.
Qed.

(** The confidence computed from a distance never exceeds 100. *)
Lemma confidence_atMost_100 (v : number) :
  (100 <? Math_round ((1 - Math_sqrt v) * 100))%float = false.
Proof.
  apply Math_round_le with (M := 7036874417766400%positive) (E := -46) (N := 100%nat)
                           (mN := 7036874417766400%positive) (eN := -46).
  - apply times_100_le with (Mu := 4503599627370496%positive) (Eu := -52).
    + apply one_minus_atMost, sqrt_notNegative.
    + cbn [digits2_pos Pos.succ]. lia.
    + binary64. lia.
    + binary64. lia.
    + lia.
    + vm_compute. discriminate.
  - lia.
  - vm_compute. reflexivity.
  - reflexivity.
  - vm_compute. reflexivity.
Qed.

(** A normal number has a mantissa of 53 digits. *)
Lemma valid_mantissa (m : positive) (e : Z) :
  valid_binary (S754_finite false m e) = true ->
  Zpos m < 2 ^ 53 /\ (emin < e -> 2 ^ 52 <= Zpos m).
Proof.
  cbn [valid_binary]. unfold bounded, canonical_mantissa. intros H.
  apply andb_true_iff in H as [H _]. apply Z.eqb_eq in H.
  pose proof (Binary64.digits2_pos_bounds m) as [Hlo Hhi].
  set (d := Zpos (digits2_pos m)) in *.
  assert (Hd : d <= 53) by (binary64; lia).
  split.
  - apply Z.lt_le_trans with (2 ^ d); [exact Hhi |].
    apply Z.pow_le_mono_r; lia.
  - intros He. assert (d = 53) by (binary64; lia).
    replace 52 with (d - 1) by lia. exact Hlo.
Qed.

(** 1 - d is at most 1 - 0.6, the number 0.4, when d is not below 0.6. *)
Lemma one_minus_atMost_04 (d : number) :
  (d <? 0.6)%float = false ->
  atMost 7205759403792794 (-54) (Prim2SF (1 - d)%float).
Proof.
  rewrite ltb_spec, sub_spec.
  change (Prim2SF 1) with (S754_finite false 4503599627370496 (-52)).
  change (Prim2SF 0.6) with (S754_finite false 5404319552844595 (-53)).
  pose proof (Prim2SF_valid d) as Hvalid.
  destruct (Prim2SF d) as [s | [|] | | [|] m e]; try discriminate; try (intros; exact I).
  unfold SFltb, SFcompare. intros Hcmp.
  destruct (valid_mantissa m e Hvalid) as [Hm53 Hm52].
  unfold SF64sub, SFsub, cond_Zopp.
  destruct (Z.compare_spec e (-53)) as [-> | Hlt | Hgt]; try discriminate.
  - (* the binade of 0.6 *)
    rewrite Pos.compare_cont_spec in Hcmp. cbn [Pos.switch_Eq] in Hcmp.
    assert (Hm : 5404319552844595 <= Zpos m).
    { destruct (Pos.compare_spec m 5404319552844595); try discriminate; lia. }
    change (Z.min (-52) (-53)) with (-53).
    change (fst (shl_align 4503599627370496 (-52) (-53)))
      with 9007199254740992%positive.
    change (fst (shl_align m (-53) (-53))) with m.
    destruct (Zpos 9007199254740992 - Zpos m) as [| p | p] eqn:Ez.
    + exact I.
    + apply binary_round_le_fine; try (binary64; lia).
      cbn [digits2_pos Pos.succ]. lia.
    + apply atMost_of_sign_true, binary_round_sign.
  - (* one binade up and more: the difference is not positive *)
    assert (Hez : Z.min (-52) e = -52) by lia. rewrite Hez.
    assert (Ha : Zpos (fst (shl_align 4503599627370496 (-52) (-52))) = 2 ^ 52)
      by reflexivity.
    assert (Hb : 2 ^ 52 <= Zpos (fst (shl_align m e (-52)))).
    { unfold shl_align.
      destruct (-52 - e) as [| k | k] eqn:Ek; cbn [fst]; try lia.
      - apply Hm52. binary64. lia.
      - destruct (iter_xO_value k m) as [-> _].
        assert (0 < 2 ^ Zpos k) by (apply Z.pow_pos_nonneg; lia).
        assert (2 ^ 52 <= Zpos m) by (apply Hm52; binary64; lia). nia. }
    rewrite Ha.
    destruct (2 ^ 52 - Zpos (fst (shl_align m e (-52)))) as [| p | p] eqn:Ez.
    + exact I.
    + lia.
    + apply atMost_of_sign_true, binary_round_sign.
Qed.

(** A comparison that is no match has a confidence of at most 40. *)
Lemma confidence_atMost_40 (d : number) :
  (d <? 0.6)%float = false ->
  (40 <? Math_round ((1 - d) * 100))%float = false.
Proof.
  intros Hd.
  apply Math_round_le with (M := 5629499534213121%positive) (E := -47) (N := 40%nat)
                           (mN := 5629499534213120%positive) (eN := -47).
  - apply times_100_le with (Mu := 7205759403792794%positive) (Eu := -54).
    + now apply one_minus_atMost_04.
    + cbn [digits2_pos Pos.succ]. lia.
    + binary64. lia.
    + binary64. lia.
    + lia.
    + vm_compute. discriminate.
  - lia.
  - vm_compute. reflexivity.
  - reflexivity.
  - vm_compute. reflexivity.
Qed.

(** Rounding a positive [m * 2^e] that is at least a number of the format
    does not lead below that number. *)
Lemma binary_round_aux_ge (m : positive) (e : Z) (M : positive) (E : Z) :
  Zpos M < 2 ^ 53 -> emin <= E ->
  e <= fexp prec emax (Zpos (digits2_pos m) + e) ->
  (e <= E /\ Zpos M * 2 ^ (E - e) <= Zpos m) \/
  (E < e /\ Zpos M <= Zpos m * 2 ^ (e - E)) ->
  atLeast M E (binary_round_aux prec emax false (Zpos m) e loc_Exact).
Proof.
  intros HM53 HEmin Hf Hge.
  pose proof (Binary64.digits2_pos_bounds m) as [Hmlo Hmhi].
  set (d := Zpos (digits2_pos m)) in *.
  unfold binary_round_aux, shr_fexp at 1. cbn [Zdigits2]. fold d.
  set (f := fexp prec emax (d + e)) in *.
  assert (Hfmin : emin <= f) by (unfold f; binary64; lia).
  unfold shr.
  destruct (f - e) as [| n | n] eqn:En; [| | lia].
  - cbn [shr_m shr_record_of_loc loc_of_shr_record round_nearest_even].
    unfold shr_fexp. cbn [Zdigits2]. fold d. fold f. rewrite En.
    cbn [shr shr_m shr_record_of_loc].
    destruct (e <=? emax - prec); [exact Hge | exact I].
  - set (mrs1 := SpecFloat.iter_pos shr_1 n (shr_record_of_loc (Zpos m) loc_Exact)).
    assert (Hm1 : shr_m mrs1 = Zpos m / 2 ^ Zpos n).
    { unfold mrs1. rewrite Binary64.iter_shr_1_m by (cbn; lia).
      cbn [shr_m shr_record_of_loc]. apply Z.shiftr_div_pow2. lia. }
    pose proof (round_nearest_even_bounds mrs1) as [[Hlo Hhi] _].
    set (m2 := round_nearest_even (shr_m mrs1) (loc_of_shr_record mrs1)) in *.
    rewrite Hm1 in Hlo, Hhi.
    assert (Hpown : 0 < 2 ^ Zpos n) by (apply Z.pow_pos_nonneg; lia).
    assert (Hm2hi : m2 <= 2 ^ 53).
    { assert (Zpos m / 2 ^ Zpos n < 2 ^ 53); [| lia].
      apply Z.div_lt_upper_bound; [exact Hpown |].
      apply Z.lt_le_trans with (2 ^ d); [exact Hmhi |].
      rewrite <- Z.pow_add_r by lia.
      apply Z.pow_le_mono_r; [lia |]. unfold f in En. binary64. lia. }
    assert (Hclaim : (f <= E /\ Zpos M * 2 ^ (E - f) <= Zpos m / 2 ^ Zpos n) \/
                     (E < f /\ 2 ^ 52 <= Zpos m / 2 ^ Zpos n)).
    { destruct (Z_le_gt_dec f E) as [HfE | HfE]; [left | right]; split; try lia.
      - destruct Hge as [[_ Hge] | [Hge _]]; [| lia].
        apply Z.div_le_lower_bound; [exact Hpown |].
        replace (E - e) with (Zpos n + (E - f)) in Hge by lia.
        rewrite Z.pow_add_r in Hge by lia. lia.
      - apply Z.div_le_lower_bound; [exact Hpown |].
        rewrite <- Z.pow_add_r by lia.
        apply Z.le_trans with (2 ^ (d - 1)); [| exact Hmlo].
        apply Z.pow_le_mono_r; [lia |]. unfold f in En, HfE. binary64. lia. }
    assert (Hpos : 0 < Zpos m / 2 ^ Zpos n).
    { destruct Hclaim as [[HfE HQ] | [_ H52]]; [| lia].
      assert (0 < 2 ^ (E - f)) by (apply Z.pow_pos_nonneg; lia). nia. }
    replace (e + Zpos n) with f by lia.
    unfold shr_fexp.
    destruct m2 as [| p2 | p2] eqn:Em2; try lia.
    cbn [Zdigits2].
    destruct (Z.eq_dec (Zpos p2) (2 ^ 53)) as [H53 | H53].
    + assert (Hp2 : p2 = 9007199254740992%positive) by (cbn in H53; lia).
      subst p2.
      assert (Hsh : fexp prec emax (Zpos (digits2_pos 9007199254740992) + f) - f = 1).
      { cbn [digits2_pos Pos.succ]. binary64. lia. }
      rewrite Hsh. cbn [shr SpecFloat.iter_pos shr_1 shr_record_of_loc shr_m].
      destruct (f + 1 <=? emax - prec); [| exact I].
      cbn [atLeast].
      destruct (Z_le_gt_dec (f + 1) E) as [HfE | HfE]; [left | right]; split; try lia.
      * destruct Hclaim as [[_ HQ] | [HEf _]]; [| lia].
        replace (E - f) with (1 + (E - (f + 1))) in HQ by lia.
        rewrite Z.pow_add_r, Z.pow_1_r in HQ by lia.
        change (Zpos 9007199254740992) with (2 * 4503599627370496) in Hhi. lia.
      * assert (2 <= 2 ^ (f + 1 - E)).
        { change 2 with (2 ^ 1) at 1. apply Z.pow_le_mono_r; lia. }
        change (2 ^ 53) with 9007199254740992 in HM53. lia.
    + pose proof (Binary64.digits2_pos_bounds p2) as [Hp2lo _].
      set (d2 := Zpos (digits2_pos p2)) in *.
      assert (Hd2 : d2 <= 53).
      { assert (H : 2 ^ (d2 - 1) < 2 ^ 53) by lia.
        apply Z.pow_lt_mono_r_iff in H; lia. }
      replace (fexp prec emax (d2 + f) - f) with
        (match fexp prec emax (d2 + f) - f with Zpos _ => 0 | z => z end).
      2:{ destruct (fexp prec emax (d2 + f) - f) eqn:E0; try reflexivity.
          binary64. lia. }
      assert (Hres : atLeast M E (S754_finite false p2 f)).
      { cbn [atLeast].
        destruct Hclaim as [[HfE HQ] | [HEf H52]]; [left | right]; split; try lia.
        assert (2 <= 2 ^ (f - E)).
        { change 2 with (2 ^ 1) at 1. apply Z.pow_le_mono_r; lia. }
        change (2 ^ 53) with (2 * 2 ^ 52) in HM53. nia. }
      destruct (fexp prec emax (d2 + f) - f); cbn [shr shr_m shr_record_of_loc];
        (destruct (f <=? emax - prec); [exact Hres | exact I]).
Qed.

Lemma binary_round_ge (p : positive) (e : Z) (M : positive) (E : Z) :
  Zpos M < 2 ^ 53 -> emin <= E ->
  (e <= E /\ Zpos M * 2 ^ (E - e) <= Zpos p) \/
  (E < e /\ Zpos M <= Zpos p * 2 ^ (e - E)) ->
  atLeast M E (binary_round prec emax false p e).
Proof.
  intros HM53 HEmin Hge. unfold binary_round, shl_align.
  set (f := fexp prec emax (Zpos (digits2_pos p) + e)).
  destruct (f - e) as [| k | k] eqn:Ek.
  - apply binary_round_aux_ge; try assumption. fold f. lia.
  - apply binary_round_aux_ge; try assumption. fold f. lia.
  - destruct (iter_xO_value k p) as [Hv Hd].
    apply binary_round_aux_ge; try assumption.
    + rewrite Hd. replace (Zpos (digits2_pos p) + Zpos k + f)
        with (Zpos (digits2_pos p) + e) by lia. fold f. lia.
    + rewrite Hv.
      assert (Hk : 0 < 2 ^ Zpos k) by (apply Z.pow_pos_nonneg; lia).
      destruct Hge as [[HeE Hge] | [HEe Hge]].
      * left. split; [lia |].
        replace (E - f) with ((E - e) + Zpos k) by lia.
        rewrite Z.pow_add_r by lia. nia.
      * destruct (Z_le_gt_dec f E) as [HfE | HfE]; [left | right]; split; try lia.
        -- replace (Zpos k) with ((e - E) + (E - f)) by lia.
           rewrite Z.pow_add_r by lia.
           assert (0 <= 2 ^ (E - f)) by (apply Z.pow_nonneg; lia). nia.
        -- rewrite <- Z.mul_assoc, <- Z.pow_add_r by lia.
           replace (Zpos k + (f - E)) with (e - E) by lia. exact Hge.
Qed.

(** 1 - d is at least 0.4 when d is below 0.6 and not negative. *)
Lemma one_minus_atLeast_04 (d : number) :
  (d <? 0.6)%float = true -> notNegative (Prim2SF d) ->
  atLeast 7205759403792794 (-54) (Prim2SF (1 - d)%float).
Proof.
  rewrite ltb_spec, sub_spec.
  change (Prim2SF 1) with (S754_finite false 4503599627370496 (-52)).
  change (Prim2SF 0.6) with (S754_finite false 5404319552844595 (-53)).
  pose proof (Prim2SF_valid d) as Hvalid.
  destruct (Prim2SF d) as [s | [|] | | [|] m e]; cbn [notNegative];
    try discriminate; try contradiction.
  - (* d is a zero *)
    intros _ _. cbn. right. split; lia.
  - unfold SFltb, SFcompare. intros Hcmp _.
    destruct (valid_mantissa m e Hvalid) as [Hm53 _].
    unfold SF64sub, SFsub, cond_Zopp.
    destruct (Z.compare_spec e (-53)) as [-> | Hlt | Hgt]; try discriminate.
    + rewrite Pos.compare_cont_spec in Hcmp. cbn [Pos.switch_Eq] in Hcmp.
      assert (Hm : Zpos m < 5404319552844595).
      { destruct (Pos.compare_spec m 5404319552844595) as [H0|H0|H0];
        try discriminate Hcmp. exact H0. }
      change (Z.min (-52) (-53)) with (-53).
      change (fst (shl_align 4503599627370496 (-52) (-53)))
        with 9007199254740992%positive.
      change (fst (shl_align m (-53) (-53))) with m.
      destruct (Zpos 9007199254740992 - Zpos m) as [| p | p] eqn:Ez; try lia.
      apply binary_round_ge; [binary64; lia | binary64; lia |].
      right. split; [lia |]. change (2 ^ (-53 - -54)) with 2. lia.
    + assert (Hez : Z.min (-52) e = e) by lia. rewrite Hez.
      assert (Ha : Zpos (fst (shl_align 4503599627370496 (-52) e)) =
                   2 ^ 54 * 2 ^ (-54 - e)).
      { unfold shl_align.
        destruct (e - -52) as [| k | k] eqn:Ek; cbn [fst]; try lia.
        destruct (iter_xO_value k 4503599627370496) as [-> _].
        replace (Zpos k) with (2 + (-54 - e)) by lia.
        rewrite Z.pow_add_r by lia.
        change (2 ^ 54) with (4503599627370496 * 2 ^ 2). ring. }
      assert (Hb : Zpos (fst (shl_align m e e)) = Zpos m).
      { unfold shl_align. now rewrite Z.sub_diag. }
      rewrite Ha, Hb.
      assert (HX : 1 <= 2 ^ (-54 - e)).
      { change 1 with (2 ^ 0). apply Z.pow_le_mono_r; lia. }
      change (2 ^ 53) with 9007199254740992 in Hm53.
      change (2 ^ 54) with 18014398509481984 in *.
      destruct (18014398509481984 * 2 ^ (-54 - e) - Zpos m) as [| p | p] eqn:Ez;
        try lia.
      apply binary_round_ge; [binary64; lia | binary64; lia |].
      left. split; lia.
Qed.



(** A number between 0.4 and 1, times 100, is at least 40. *)
Lemma times_100_atLeast_40 (u : number) :
  atMost 4503599627370496 (-52) (Prim2SF u) ->
  atLeast 7205759403792794 (-54) (Prim2SF u) ->
  atLeast 5629499534213120 (-47) (Prim2SF (u * 100)%float).
Proof.
  intros Hle Hge. rewrite mul_spec.
  change (Prim2SF 100) with (S754_finite false 7036874417766400 (-46)).
  destruct (Prim2SF u) as [s | [|] | | [|] m e]; cbn [atLeast] in Hge;
    try contradiction.
  cbn [atMost] in Hle. destruct Hle as [He _].
  unfold SF64mul, SFmul. cbn [xorb].
  pose proof (Binary64.digits2_pos_mul m 7036874417766400) as Hd.
  cbn [digits2_pos Pos.succ] in Hd.
  apply binary_round_aux_ge; try (binary64; lia).
  left. split; [lia |].
  rewrite Pos2Z.inj_mul.
  replace (-47 - (e + -46)) with (- 1 - e) by lia.
  destruct Hge as [[He' Hge] | [He' Hge]].
  - assert (HX : 2 ^ (- 1 - e) = 2 ^ 53 * 2 ^ (-54 - e)).
    { rewrite <- Z.pow_add_r by lia. f_equal. lia. }
    rewrite HX.
    assert (0 <= 2 ^ (-54 - e)) by (apply Z.pow_nonneg; lia).
    change (2 ^ 53) with 9007199254740992. nia.
  - assert (HX : 2 ^ 53 = 2 ^ (- 1 - e) * 2 ^ (e - -54)).
    { rewrite <- Z.pow_add_r by lia. f_equal. lia. }
    assert (0 < 2 ^ (e - -54)) by (apply Z.pow_pos_nonneg; lia).
    assert (0 < 2 ^ (- 1 - e)) by (apply Z.pow_pos_nonneg; lia).
    change (2 ^ 53) with 9007199254740992 in HX. nia.
Qed.

(** [Math.round] of a number between 40 and 100 is at least 40. *)
Lemma Math_round_atLeast_40 (p : number) :
  atMost 7036874417766400 (-46) (Prim2SF p) ->
  atLeast 5629499534213120 (-47) (Prim2SF p) ->
  (40 <=? Math_round p)%float = true.
Proof.
  intros Hle Hge. unfold Math_round.
  destruct (Prim2SF p) as [s | [|] | | [|] m e]; cbn [atLeast] in Hge;
    try contradiction.
  cbn [atMost] in Hle. destruct Hle as [He Hm].
  assert (He0 : (0 <=? e) = false) by (apply Z.leb_gt; lia). rewrite He0.
  cbn [cond_Zopp].
  assert (Hpow : 0 < 2 ^ (- e)) by (apply Z.pow_pos_nonneg; lia).
  assert (Hpow1 : 2 ^ (1 - e) = 2 * 2 ^ (- e)).
  { replace (1 - e) with (1 + - e) by lia. now rewrite Z.pow_add_r, Z.pow_1_r by lia. }
  assert (Hm100 : Zpos m <= 100 * 2 ^ (- e)).
  { assert (H2 : 2 ^ 46 * 2 ^ (-46 - e) = 2 ^ (- e)).
    { rewrite <- Z.pow_add_r by lia. f_equal. lia. }
    change (Zpos 7036874417766400) with (100 * 2 ^ 46) in Hm. nia. }
  assert (Hm40 : 40 * 2 ^ (- e) <= Zpos m).
  { destruct Hge as [[He' Hge] | [He' Hge]].
    - assert (H2 : 2 ^ 47 * 2 ^ (-47 - e) = 2 ^ (- e)).
      { rewrite <- Z.pow_add_r by lia. f_equal. lia. }
      change (Zpos 5629499534213120) with (40 * 2 ^ 47) in Hge. nia.
    - assert (e = -46) by lia. subst e.
      change (2 ^ (-46 - -47)) with 2 in Hge.
      change (2 ^ (- -46)) with 70368744177664. lia. }
  set (n := (2 * Zpos m + 2 ^ (- e)) / 2 ^ (1 - e)).
  assert (Hn : 40 <= n <= 100).
  { unfold n. rewrite Hpow1. split.
    - apply Z.div_le_lower_bound; lia.
    - assert ((2 * Zpos m + 2 ^ (- e)) / (2 * 2 ^ (- e)) < 101); [| lia].
      apply Z.div_lt_upper_bound; lia. }
  assert (En0 : (n =? 0) = false) by (apply Z.eqb_neq; lia). rewrite En0.
  assert (H : forallb (fun k => (40 <=? of_integer (Z.of_nat k))%float)
                (seq 40 61) = true) by (vm_compute; reflexivity).
  rewrite forallb_forall in H.
  specialize (H (Z.to_nat n)). rewrite Z2Nat.id in H by lia.
  apply H, in_seq. lia.
Qed.

(** A comparison that is a match has a confidence of at least 40. *)
Lemma confidence_atLeast_40 (v : number) :
  (Math_sqrt v <? 0.6)%float = true ->
  (40 <=? Math_round ((1 - Math_sqrt v) * 100))%float = true.
Proof.
  intros Hd.
  pose proof (sqrt_notNegative v) as Hnn.
  pose proof (one_minus_atMost (Math_sqrt v) Hnn) as Hle.
  pose proof (one_minus_atLeast_04 (Math_sqrt v) Hd Hnn) as Hge.
  apply Math_round_atLeast_40.
  - apply times_100_le with (Mu := 4503599627370496%positive) (Eu := -52).
    + exact Hle.
    + cbn [digits2_pos Pos.succ]. lia.
    + binary64. lia.
    + binary64. lia.
    + lia.
    + vm_compute. discriminate.
  - now apply times_100_atLeast_40.
Qed.

End Binary64Bounds.

(** The distance of two vectors is a square root. *)
Lemma euclideanDistance_root (arr1 arr2 : list number) (d : number) :
  FaceApi.euclideanDistance arr1 arr2 = Some d -> exists v, d = Math_sqrt v.
Proof.
  unfold FaceApi.euclideanDistance.
  destruct (Nat.eqb (length arr1) (length arr2)); [| discriminate].
  intros [= <-]. eauto.
Qed.

Lemma verdicts_perform_root (st : State) (a : Action) (r : VerificationResult) :
  In r (verdicts (perform st a)) ->
  (exists c, r = failedVerdict c) \/
  (exists v, r = comparisonVerdict (Math_sqrt v)).
Proof.
  destruct a as [loaded | granted | frame | frame]; cbn.
  - now destruct loaded.
  - unfold startWebcam. repeat break_if; cbn; tauto.
  - now rewrite verdicts_captureFace.
  - intros H. destruct (verdicts_verifyFace st frame r H)
      as (enrolled & _ & _ & _ & [(c & _ & ->) | (probe & d & _ & _ & Hd & ->)]);
      [eauto |].
    destruct (euclideanDistance_root _ _ d Hd) as [v ->]. eauto.
Qed.

(** The verdict stored in a reachable state is a failed verdict or the
    verdict of a comparison at a distance that is a square root. *)
Lemma stored_verdict_root (st : State) (r : VerificationResult) :
  reachable st -> verificationResult st = Some r ->
  (exists c, r = failedVerdict c) \/
  (exists v, r = comparisonVerdict (Math_sqrt v)).
Proof.
  intros Hr. revert r.
  induction Hr as [video canvas | st a _ IH]; [discriminate |].
  unfold step. apply run_wellformed; [exact IH |].
  apply verdicts_perform_root.
Qed.

(** The confidence of the verdict stored in a reachable state is
    never above 100: the distance is a square root, so it is not
    negative, and [Math.round((1 - distance) * 100)] is at most 100 (or
    NaN, which is above nothing). *)
Theorem confidence_never_above_100 (st : State) (r : VerificationResult)
        (c : number) :
  reachable st -> verificationResult st = Some r -> confidence r = Some c ->
  (100 <? c)%float = false.
Proof.
  intros Hr Hs Hc.
  destruct (stored_verdict_root st r Hr Hs) as [[k ->] | [v ->]];
    [discriminate |].
  unfold comparisonVerdict in Hc. cbn [confidence] in Hc.
  injection Hc as <-. apply Binary64Bounds.confidence_atMost_100.
Qed.

Lemma confidence_never_above_100_witness : (100 <? -30)%float = false.
Proof.
  apply (confidence_never_above_100
           (step (enrolledWith faceprint13)
              (VerifyFace (Resolved [face frontalLandmarks origin])))
           (comparisonVerdict 1.3) (-30)%float).
  - constructor. apply reachable_enrolledWith.
  - vm_compute. reflexivity.
  - vm_compute. reflexivity.
Defined.

(** The threshold 0.6 on the distance splits the confidence at 40:
    the verdict stored in a reachable state has a confidence of at least
    40 when it is a match, and a confidence that is not above 40 (a
    smaller number, 40 itself, or NaN) when it is no match but has a
    confidence. *)
Theorem confidence_splits_at_40 (st : State) (r : VerificationResult)
        (c : number) :
  reachable st -> verificationResult st = Some r -> confidence r = Some c ->
  if isMatch r then (40 <=? c)%float = true else (40 <? c)%float = false.
Proof.
  intros Hr Hs Hc.
  destruct (stored_verdict_root st r Hr Hs) as [[k ->] | [v ->]];
    [discriminate |].
  unfold comparisonVerdict in *. cbn [confidence isMatch] in *.
  injection Hc as <-. unfold threshold.
  destruct (Math_sqrt v <? 0.6)%float eqn:Hd.
  - now apply Binary64Bounds.confidence_atLeast_40.
  - now apply Binary64Bounds.confidence_atMost_40.
Qed.

Lemma confidence_splits_at_40_witness :
  if isMatch (comparisonVerdict 0)
  then (40 <=? 100)%float = true else (40 <? 100)%float = false.
Proof.
  apply (confidence_splits_at_40
           (step (enrolledWith origin)
              (VerifyFace (Resolved [face frontalLandmarks origin])))
           (comparisonVerdict 0) 100%float).
  - constructor. apply reachable_enrolledWith.
  - vm_compute. reflexivity.
  - vm_compute. reflexivity.
Defined.
